(** * Rental-listing pipeline: scraper, property store, hypothesis engine

    A shallow embedding of [scraper.py], [database.py] and
    [analyzer.verify_hypothesis], with the properties the specification
    states about them.

    Conventions of the embedding.
    - A Python [str] is the list of its Unicode code points ([pystr]).
    - A Python [float] produced by the scraper or held in a REAL column is
      the exact rational it denotes ([Q]); in the scraper and the store
      rounding to binary64 and overflow are not modelled.  Numeric [==],
      [<], [>=] are [Qeq], [Qlt], [Qle].
    - The arithmetic of the Hypothesis Engine is binary64 arithmetic: the
      exact result of an operation, rounded by a function [fl] of the
      library the engine runs on; what pandas and scipy compute is taken
      from that library too.
    - A call that may raise returns [exc A]: [Raise e] or [Ret a].
    - Output on stdout, [time.sleep] and HTTP requests are recorded in an
      event log, the network is an explicit world state. *)

From Stdlib Require Import ZArith NArith QArith List Bool Lia Ascii String.
From stdpp Require Import base option list gmap sorting.
Import ListNotations.

Local Open Scope Z_scope.

(** ** Python runtime *)

(** A character is its code point, a [str] the list of them. *)
Abbreviation pychar := N (only parsing).
Abbreviation pystr := (list N) (only parsing).

Inductive exception :=
| ValueError
| RequestException
| LibraryError.     (* raised inside pandas, numpy or scipy *)

Inductive exc (A : Type) :=
| Raise (e : exception)
| Ret (a : A).
Arguments Raise {A} e.
Arguments Ret {A} a.

#[global] Instance exc_ret : MRet exc := fun _ a => Ret a.
#[global] Instance exc_bind : MBind exc := fun _ _ k m =>
  match m with
  | Raise e => Raise e
  | Ret a => k a
  end.

Definition raises {A} (m : exc A) : Prop := exists e, m = Raise e.

(** Code points the sources mention. *)
Definition ch_comma : pychar := 44%N.      (* ',' *)
Definition ch_hyphen : pychar := 45%N.     (* '-' *)
Definition ch_dot : pychar := 46%N.        (* '.' *)
Definition ch_man : pychar := 19975%N.     (* U+4E07, the ten-thousand marker *)
Definition ch_yen : pychar := 20870%N.     (* U+5186, the currency suffix *)

(** [str(n)] for a non-negative integer: its decimal digits. *)
Definition ascii_digit (d : N) : pychar := (48 + d)%N.

Fixpoint str_uint (u : Decimal.uint) : pystr :=
  match u with
  | Decimal.Nil => []
  | Decimal.D0 u => ascii_digit 0 :: str_uint u
  | Decimal.D1 u => ascii_digit 1 :: str_uint u
  | Decimal.D2 u => ascii_digit 2 :: str_uint u
  | Decimal.D3 u => ascii_digit 3 :: str_uint u
  | Decimal.D4 u => ascii_digit 4 :: str_uint u
  | Decimal.D5 u => ascii_digit 5 :: str_uint u
  | Decimal.D6 u => ascii_digit 6 :: str_uint u
  | Decimal.D7 u => ascii_digit 7 :: str_uint u
  | Decimal.D8 u => ascii_digit 8 :: str_uint u
  | Decimal.D9 u => ascii_digit 9 :: str_uint u
  end.

Definition str_of_int (z : Z) : pystr :=
  match Z.to_int z with
  | Decimal.Pos u => str_uint u
  | Decimal.Neg u => ch_hyphen :: str_uint u
  end.

(** ASCII text of the sources as code points. *)
Definition of_ascii (s : String.string) : pystr :=
  map Ascii.N_of_ascii (String.list_ascii_of_string s).

(** ** The scraper ([scraper.py]) *)

Module Scraper.

Section Scrape.

(** *** The number parser of the Field Extractor

    The Unicode database's decimal-digit property
    ([Py_UNICODE_TODECIMAL]): [\d] matches exactly the code points it
    maps to a digit, and [float] reads such a code point as that digit.
    The table belongs to the interpreter, so it is a parameter here. *)
Variable unicode_decimal : pychar -> option N.

Definition is_digit (c : pychar) : bool :=
  match unicode_decimal c with Some _ => true | None => false end.

(** The character class [[\d.]]. *)
Definition numch (c : pychar) : bool := is_digit c || N.eqb c ch_dot.

(** [float(s)] on the strings the parser passes to it, which are
    matches of [[\d.]+]: digits with at most one dot and at least one
    digit denote a number, anything else is a [ValueError]. *)
Fixpoint digits_value (acc : N) (s : pystr) : option N :=
  match s with
  | [] => Some acc
  | c :: s' =>
      if N.eqb c ch_dot then None
      else match unicode_decimal c with
           | Some d => digits_value (10 * acc + d)%N s'
           | None => None
           end
  end.

Fixpoint split_dot (s : pystr) : pystr * option pystr :=
  match s with
  | [] => ([], None)
  | c :: s' =>
      if N.eqb c ch_dot then ([], Some s')
      else let '(ip, fp) := split_dot s' in (c :: ip, fp)
  end.

Fixpoint pow10 (n : nat) : positive :=
  match n with
  | O => 1%positive
  | S n' => (10 * pow10 n')%positive
  end.

Definition py_float (s : pystr) : exc Q :=
  let '(ip, fp) := split_dot s in
  let frac := match fp with Some f => f | None => [] end in
  match ip ++ frac with
  | [] => Raise ValueError
  | ds =>
      match digits_value 0 ds with
      | Some m => Ret (Z.of_N m # pow10 (length frac))
      | None => Raise ValueError
      end
  end.

(** [re.search(r'([\d.]+)万', text)]: the pattern anchored at the head
    of [t], greedy with backtracking, returning group 1 ... *)
Fixpoint match_num_man (t : pystr) : option pystr :=
  match t with
  | [] => None
  | c :: t' =>
      if numch c then
        match match_num_man t' with
        | Some r => Some (c :: r)
        | None =>
            match t' with
            | c' :: _ => if N.eqb c' ch_man then Some [c] else None
            | [] => None
            end
        end
      else None
  end.

(** ... tried at every start position from the left. *)
Fixpoint search_num_man (t : pystr) : option pystr :=
  match match_num_man t with
  | Some r => Some r
  | None =>
      match t with
      | [] => None
      | _ :: t' => search_num_man t'
      end
  end.

(** [text.replace(c, '')] for a one-character [c]. *)
Definition remove_char (c : pychar) (t : pystr) : pystr :=
  filter (fun x => x <> c) t.

(** [re.findall(r'[\d.]+', text)]: the maximal runs of the class, left
    to right.  [cur] is the run being read, in reverse. *)
Definition flush (cur : pystr) : list pystr :=
  match cur with
  | [] => []
  | _ => [rev cur]
  end.

Fixpoint findall_num_from (cur : pystr) (t : pystr) : list pystr :=
  match t with
  | [] => flush cur
  | c :: t' =>
      if numch c then findall_num_from (c :: cur) t'
      else flush cur ++ findall_num_from [] t'
  end.

Definition findall_num (t : pystr) : list pystr := findall_num_from [] t.

(** ['万' in text] *)
Definition contains_man (t : pystr) : bool := existsb (N.eqb ch_man) t.

(** [SuumoScraper._extract_number] (scraper.py, lines 151-169).
    [Ret None] is the [None] result. *)
Definition _extract_number (text : pystr) : exc (option Q) :=
  match (if contains_man text then search_num_man text else None) with
  | Some g => v ← py_float g; Ret (Some (v * 10000)%Q)
  | None =>
      let text := remove_char ch_yen (remove_char ch_comma text) in
      match findall_num text with
      | n0 :: _ => v ← py_float n0; Ret (Some v)
      | [] => Ret None
      end
  end.

(** *** The page as the Area Collector reads it

    BeautifulSoup is outside the repository: a response is modelled by
    what the calls of [scrape_area] read from it.  A field is [None] when
    [find] returns [None], otherwise the tag's [get_text(strip=True)]. *)

Record Room := {
  rent_text : option pystr;      (* span.cassetteitem_price--rent *)
  admin_text : option pystr;     (* span.cassetteitem_price--administration *)
  madori_text : option pystr;    (* span.cassetteitem_madori *)
  menseki_text : option pystr    (* span.cassetteitem_menseki *)
}.

Record Cassette := {
  title_text : option pystr;     (* div.cassetteitem_content-title *)
  address_text : option pystr;   (* li.cassetteitem_detail-col1 *)
  rooms : list Room              (* find_all('tbody') *)
}.

Record Response := {
  status_code : Z;
  cassettos : list Cassette      (* find_all('div', class_='cassetteitem') *)
}.

(** The dictionaries appended to [properties] (lines 126-135). *)
Record ListingRecord := {
  name : pystr;
  address : pystr;
  rent : Q;
  admin_fee : Q;
  total : Q;
  layout : pystr;
  area_size : pystr;
  area_name : pystr
}.

(** What [scrape_area] prints, one constructor per [print]. *)
Inductive message :=
| MsgStart (area : pystr)
| MsgUnsupported (area : pystr)
| MsgSupportedAreas (keys : list pystr)
| MsgPage (page pages : Z)
| MsgWait
| MsgHttpStatus (status : Z)
| MsgNoData
| MsgDetected (n : nat)
| MsgTotal (n : nat)
| MsgError (e : exception).

Inductive event :=
| Print (m : message)
| Sleep (seconds : Z)
| Get (url : pystr).

(** The network: [requests.get(url, ...)] answers or raises, and moves
    the world on. *)
Variable World : Type.
Variable requests_get : World -> pystr -> exc Response * World.

(** [AREA_CODES] (lines 17-20), in insertion order. *)
Definition shinjuku : pystr := [26032; 23487; 21306]%N.          (* U+65B0 U+5BBF U+533A *)
Definition setagaya : pystr := [19990; 30000; 35895; 21306]%N.   (* U+4E16 U+7530 U+8C37 U+533A *)

Definition AREA_CODES_items : list (pystr * pystr) :=
  [ (shinjuku, of_ascii "13104"); (setagaya, of_ascii "13112") ].

Definition AREA_CODES : gmap pystr pystr := list_to_map AREA_CODES_items.

(** [x or 0] on the parser's result. *)
Definition or_zero (r : option Q) : Q :=
  match r with
  | Some v => if Qeq_bool v 0 then 0%Q else v
  | None => 0%Q
  end.

Definition default_text (t : option pystr) : pystr :=
  match t with Some s => s | None => [] end.

(** The body of [for room in rooms] (lines 98-135): [Ret None] is a
    [continue], [Ret (Some r)] the record appended, [Raise] an exception
    that reaches the handler of line 137. *)
Definition extract_room (name address area_name : pystr) (room : Room)
  : exc (option ListingRecord) :=
  match rent_text room with
  | None => Ret None
  | Some price_text =>
      price ← _extract_number price_text;
      match price with
      | None => Ret None
      | Some price =>
          if negb (Qle_bool 10000 price) then Ret None
          else
            admin_fee ←
              match admin_text room with
              | None => Ret 0%Q
              | Some admin_text =>
                  if decide (admin_text = [ch_hyphen]) then Ret 0%Q
                  else r ← _extract_number admin_text; Ret (or_zero r)
              end;
            Ret (Some {| name := name;
                         address := address;
                         rent := price;
                         admin_fee := admin_fee;
                         total := (price + admin_fee)%Q;
                         layout := default_text (madori_text room);
                         area_size := default_text (menseki_text room);
                         area_name := area_name |})
      end
  end.

(** [for room in rooms: try: ... except Exception: continue]. *)
Definition rooms_loop (name address area_name : pystr) (rs : list Room)
    (properties : list ListingRecord) : list ListingRecord :=
  fold_left
    (fun props room =>
       match extract_room name address area_name room with
       | Ret (Some r) => props ++ [r]
       | Ret None => props
       | Raise _ => props
       end)
    rs properties.

(** The body of [for cassetto in cassettos] (lines 83-141). *)
Definition cassette_step (area_name : pystr) (properties : list ListingRecord)
    (c : Cassette) : list ListingRecord :=
  match title_text c with
  | None => properties
  | Some name =>
      rooms_loop name (default_text (address_text c)) area_name (rooms c) properties
  end.

(** The URL of lines 54-57. *)
Definition build_url (suumo_area_code : pystr) (page : Z) : pystr :=
  of_ascii "https://suumo.jp/jj/chintai/ichiran/FR301FC001/"
  ++ of_ascii "?ar=030&bs=040&ta=13&sc=" ++ suumo_area_code
  ++ of_ascii "&page=" ++ str_of_int page.

(** The state the page loop carries. *)
Record loop_state := {
  st_properties : list ListingRecord;
  st_world : World;
  st_log : list event
}.

(** The body of [for page in range(1, pages + 1)] (lines 52-147). *)
Definition page_step (suumo_area_code area_name : pystr) (pages : Z)
    (st : loop_state) (page : Z) : loop_state :=
  let url := build_url suumo_area_code page in
  let log := st_log st ++ [Print (MsgPage page pages); Print MsgWait; Sleep 3; Get url] in
  match requests_get (st_world st) url with
  | (Raise e, w) =>
      {| st_properties := st_properties st; st_world := w;
         st_log := log ++ [Print (MsgError e)] |}
  | (Ret response, w) =>
      if negb (status_code response =? 200) then
        {| st_properties := st_properties st; st_world := w;
           st_log := log ++ [Print (MsgHttpStatus (status_code response))] |}
      else
        match cassettos response with
        | [] =>
            {| st_properties := st_properties st; st_world := w;
               st_log := log ++ [Print MsgNoData] |}
        | cs =>
            let props := fold_left (cassette_step area_name) cs (st_properties st) in
            {| st_properties := props; st_world := w;
               st_log := log ++ [Print (MsgDetected (length cs)); Print (MsgTotal (length props))] |}
        end
  end.

(** [range(1, pages + 1)] *)
Definition page_range (pages : Z) : list Z :=
  map Z.of_nat (seq 1 (Z.to_nat pages)).

(** [SuumoScraper.scrape_area] (lines 27-149).  [area_code] is the
    parameter the docstring calls unused. *)
Definition scrape_area (area_code area_name : pystr) (pages : Z) (w : World)
  : loop_state :=
  let log := [Print (MsgStart area_name)] in
  let unsupported :=
    {| st_properties := []; st_world := w;
       st_log := log ++ [Print (MsgUnsupported area_name);
                         Print (MsgSupportedAreas (map fst AREA_CODES_items))] |} in
  match AREA_CODES !! area_name with
  | None => unsupported
  | Some [] => unsupported
  | Some suumo_area_code =>
      fold_left (page_step suumo_area_code area_name pages) (page_range pages)
        {| st_properties := []; st_world := w; st_log := log |}
  end.

End Scrape.

(** The decimal table restricted to ASCII and full-width digits, for
    evaluating the parser on concrete texts. *)
Definition basic_decimal (c : pychar) : option N :=
  if ((48 <=? c) && (c <=? 57))%N then Some (c - 48)%N
  else if ((65296 <=? c) && (c <=? 65305))%N then Some (c - 65296)%N
  else None.

End Scraper.

(** ** The Property Store ([database.py]) *)

Module Database.

(** A row of table [properties] (lines 31-42).  Columns without
    [NOT NULL] may hold NULL ([None]). *)
Record Row := {
  id : Z;
  name : pystr;
  address : option pystr;
  rent : Q;
  admin_fee : option Q;
  total : Q;
  layout : option pystr;
  area_size : option pystr;
  area_name : pystr;
  scraped_at : Z
}.

(** The table and the [AUTOINCREMENT] counter of [sqlite_sequence]. *)
Record DB := {
  rows : list Row;
  last_id : Z
}.

(** One [INSERT] of [save_properties] (lines 73-80): the eight bound
    parameters are the record's fields as they are; [id] and
    [scraped_at] are assigned by the engine. *)
Definition insert_property (now : Z) (db : DB) (p : Scraper.ListingRecord) : DB :=
  let new_id := last_id db + 1 in
  {| rows := rows db ++
       [ {| id := new_id;
            name := Scraper.name p;
            address := Some (Scraper.address p);
            rent := Scraper.rent p;
            admin_fee := Some (Scraper.admin_fee p);
            total := Scraper.total p;
            layout := Some (Scraper.layout p);
            area_size := Some (Scraper.area_size p);
            area_name := Scraper.area_name p;
            scraped_at := now |} ];
     last_id := new_id |}.

(** [PropertyDatabase.save_properties] (lines 60-84): the new state and
    the count returned.  [now] is [CURRENT_TIMESTAMP] during the batch. *)
Definition save_properties (now : Z) (db : DB) (properties : list Scraper.ListingRecord)
  : DB * nat :=
  (fold_left (insert_property now) properties db, length properties).

(** [get_all_properties] (lines 86-94). *)
Definition get_all_properties (db : DB) : list Row := rows db.

(** [clear_all] (lines 197-202): [DELETE] keeps the counter. *)
Definition clear_all (db : DB) : DB := {| rows := []; last_id := last_id db |}.

(** Truth value of an optional argument in [if area:], [if min_rent:]. *)
Definition truthy_str (a : option pystr) : bool :=
  match a with
  | Some (_ :: _) => true
  | _ => false
  end.

Definition truthy_num (x : option Q) : bool :=
  match x with
  | Some v => negb (Qeq_bool v 0)
  | None => false
  end.

(** The entries of [conditions], each with its bound parameter. *)
Inductive condition :=
| AreaNameEq (a : pystr)      (* "area_name = ?" *)
| TotalGe (x : Q)             (* "total >= ?" *)
| TotalLe (x : Q)             (* "total <= ?" *)
| LayoutEq (l : pystr).       (* "layout = ?" *)

(** SQL evaluation of one condition on a row; a comparison with NULL is
    not true. *)
Definition holds (r : Row) (c : condition) : bool :=
  match c with
  | AreaNameEq a => bool_decide (area_name r = a)
  | TotalGe x => Qle_bool x (total r)
  | TotalLe x => Qle_bool (total r) x
  | LayoutEq l => bool_decide (layout r = Some l)
  end.

Definition build_conditions (area : option pystr) (min_rent max_rent : option Q)
    (layout : option pystr) : list condition :=
  (if truthy_str area then [AreaNameEq (default [] area)] else [])
  ++ (if truthy_num min_rent then [TotalGe (default 0%Q min_rent)] else [])
  ++ (if truthy_num max_rent then [TotalLe (default 0%Q max_rent)] else [])
  ++ (if truthy_str layout then [LayoutEq (default [] layout)] else []).

(** [" AND ".join(conditions) if conditions else "1=1"] *)
Definition where_clause (conditions : list condition) (r : Row) : bool :=
  forallb (holds r) conditions.

(** [get_properties_by_conditions] (lines 110-151); [None] is an
    argument left at its default. *)
Definition get_properties_by_conditions (db : DB) (area : option pystr)
    (min_rent max_rent : option Q) (layout : option pystr) : list Row :=
  List.filter (where_clause (build_conditions area min_rent max_rent layout)) (rows db).

(** A row of the result of [get_layout_stats]. *)
Record LayoutStat := {
  stat_layout : pystr;
  count : nat;
  avg_rent : Q;
  min_rent : Q;
  max_rent : Q
}.

Definition Qsum (l : list Q) : Q := fold_right Qplus 0%Q l.
Definition Qmin (a b : Q) : Q := if Qle_bool a b then a else b.
Definition Qmax (a b : Q) : Q := if Qle_bool a b then b else a.

(** [AVG], [MIN], [MAX] over a group (never empty). *)
Definition avg (l : list Q) : Q := (Qsum l / inject_Z (Z.of_nat (length l)))%Q.
Definition minimum (l : list Q) : Q :=
  match l with [] => 0%Q | x :: l' => fold_left Qmin l' x end.
Definition maximum (l : list Q) : Q :=
  match l with [] => 0%Q | x :: l' => fold_left Qmax l' x end.

(** [WHERE layout != ''] : NULL is not selected. *)
Definition layout_nonempty (r : Row) : bool :=
  match layout r with
  | Some (_ :: _) => true
  | _ => false
  end.

Definition has_layout (l : pystr) (r : Row) : bool := bool_decide (layout r = Some l).

(** [GROUP BY layout] with the aggregates of the SELECT. *)
Definition layout_group (rs : list Row) (l : pystr) : LayoutStat :=
  let totals := map total (List.filter (has_layout l) rs) in
  {| stat_layout := l;
     count := length totals;
     avg_rent := avg totals;
     min_rent := minimum totals;
     max_rent := maximum totals |}.

(** [ORDER BY avg_rent DESC] *)
Definition avg_desc (a b : LayoutStat) : Prop := (avg_rent b <= avg_rent a)%Q.

#[global] Instance avg_desc_dec : RelDecision avg_desc.
Proof. intros a b. unfold avg_desc. destruct (Qlt_le_dec (avg_rent a) (avg_rent b)) as [H|H].
  - right. intros H'. exact (Qlt_not_le _ _ H H').
  - left. exact H.
Defined.

(** [get_layout_stats] (lines 174-195). *)
Definition get_layout_stats (db : DB) : list LayoutStat :=
  let selected := List.filter layout_nonempty (rows db) in
  let keys := remove_dups (omap layout selected) in
  let groups := map (layout_group selected) keys in
  let having := List.filter (fun g => 5 <=? count g)%nat groups in
  merge_sort avg_desc having.

End Database.

(** ** The Hypothesis Engine ([analyzer.verify_hypothesis]) *)

Module Analyzer.

(** A float64 as pandas and numpy compute with it: a finite value, an
    infinity or NaN.  The sign of zero is not modelled (a zero divisor
    counts as positive). *)
Inductive npfloat :=
| Fin (q : Q)
| PInf
| NInf
| NaN.

(** A pandas [Series] of numbers: its values and whether its dtype is
    [object] rather than [float64]. *)
Record Series := {
  object_dtype : bool;
  values : list Q
}.

(** What the engine takes from outside the repository.
    - [fl]: the binary64 result for an exact rational result (rounding to
      nearest, an infinity out of range).
    - [series_mean]: [Series.mean()] on one value or more.
    - [series_std]: [Series.std()], the sample standard deviation
      ([ddof=1]), on two values or more.
    - [ttest_ind]: [scipy.stats.ttest_ind(a, b, equal_var=False)], which
      returns the statistic and the p-value, or raises. *)
Record Library := {
  fl : Q -> npfloat;
  series_mean : list Q -> npfloat;
  series_std : list Q -> npfloat;
  ttest_ind : Series -> Series -> exc (npfloat * npfloat)
}.

Definition np_neg (x : npfloat) : npfloat :=
  match x with
  | Fin q => Fin (- q)
  | PInf => NInf
  | NInf => PInf
  | NaN => NaN
  end.

Definition Qsign_inf (a : Q) : npfloat :=
  if Qeq_bool a 0 then NaN
  else if Qle_bool 0 a then PInf else NInf.

(** [x >= y] and [x < y]: false as soon as one side is NaN. *)
Definition np_ge (x y : npfloat) : bool :=
  match x, y with
  | NaN, _ | _, NaN => false
  | Fin a, Fin b => Qle_bool b a
  | PInf, _ => true
  | _, NInf => true
  | _, _ => false
  end.

Definition np_lt (x y : npfloat) : bool :=
  match x, y with
  | NaN, _ | _, NaN => false
  | _, _ => negb (np_ge x y)
  end.

Section Engine.

Variable lib : Library.

(** [x - y], [x * y] and [x / y] on float64. *)
Definition np_sub (x y : npfloat) : npfloat :=
  match x, y with
  | Fin a, Fin b => fl lib (a - b)
  | NaN, _ | _, NaN => NaN
  | PInf, PInf | NInf, NInf => NaN
  | PInf, _ | _, NInf => PInf
  | NInf, _ | _, PInf => NInf
  end.

Definition np_mul (x y : npfloat) : npfloat :=
  match x, y with
  | Fin a, Fin b => fl lib (a * b)
  | NaN, _ | _, NaN => NaN
  | PInf, Fin b | Fin b, PInf => Qsign_inf b
  | NInf, Fin b | Fin b, NInf => np_neg (Qsign_inf b)
  | PInf, PInf | NInf, NInf => PInf
  | PInf, NInf | NInf, PInf => NInf
  end.

Definition np_div (x y : npfloat) : npfloat :=
  match x, y with
  | Fin a, Fin b => if Qeq_bool b 0 then Qsign_inf a else fl lib (a / b)
  | NaN, _ | _, NaN => NaN
  | Fin _, _ => Fin 0
  | PInf, Fin b => if Qle_bool 0 b then PInf else NInf
  | NInf, Fin b => if Qle_bool 0 b then NInf else PInf
  | _, _ => NaN
  end.

(** [Series.mean()]: NaN on an empty series. *)
Definition mean (s : Series) : npfloat :=
  match values s with
  | [] => NaN
  | xs => series_mean lib xs
  end.

(** [Series.std()]: NaN on fewer than two values. *)
Definition std (s : Series) : npfloat :=
  match values s with
  | [] | [_] => NaN
  | xs => series_std lib xs
  end.

(** [p_display] (lines 84-95): the fixed text, or the p-value printed
    with three decimals. *)
Inductive p_text :=
| PBelow001
| PEquals (p : npfloat).

(** The dictionary returned (lines 120-135). *)
Record HypothesisResult := {
  high_area : pystr;
  low_area : pystr;
  high_avg : npfloat;
  high_std : npfloat;
  low_avg : npfloat;
  low_std : npfloat;
  diff : npfloat;
  diff_rate : npfloat;
  t_stat : npfloat;
  p_value : npfloat;
  p_display : p_text;
  hypothesis_accepted : bool;
  annual_diff : npfloat;
  five_year_diff : npfloat
}.

(** The values of [df[df['area_name'] == area]['total']]. *)
Definition totals_of (area : pystr) (df : list Database.Row) : list Q :=
  map Database.total
    (List.filter (fun r => bool_decide (Database.area_name r = area)) df).

(** [df[df['area_name'] == area]['total']]: the selection keeps the dtype
    of the column, which is [float64] when the query returned rows and
    [object] when it returned none. *)
Definition total_column (area : pystr) (df : list Database.Row) : Series :=
  {| object_dtype := match df with [] => true | _ => false end;
     values := totals_of area df |}.

(** [PropertyAnalyzer.verify_hypothesis] (lines 36-135).  The t-test
    (line 67) is the one call that may raise; nothing catches it. *)
Definition verify_hypothesis (db : Database.DB) : exc HypothesisResult :=
  let df := Database.get_all_properties db in
  let shinjuku := total_column Scraper.shinjuku df in
  let setagaya := total_column Scraper.setagaya df in
  let shinjuku_avg := mean shinjuku in
  let shinjuku_std := std shinjuku in
  let setagaya_avg := mean setagaya in
  let setagaya_std := std setagaya in
  let diff := np_sub shinjuku_avg setagaya_avg in
  let diff_rate := np_mul (np_div diff setagaya_avg) (Fin 100) in
  tp ← ttest_ind lib shinjuku setagaya;
  let '(t_stat, p_value) := tp in
  let p_display :=
    if np_lt p_value (Fin (1 # 1000)) then PBelow001 else PEquals p_value in
  let annual_diff := np_mul diff (Fin 12) in
  let five_year_diff := np_mul annual_diff (Fin 5) in
  Ret {| high_area := of_ascii "Shinjuku";
         low_area := of_ascii "Setagaya";
         high_avg := shinjuku_avg;
         high_std := shinjuku_std;
         low_avg := setagaya_avg;
         low_std := setagaya_std;
         diff := diff;
         diff_rate := diff_rate;
         t_stat := t_stat;
         p_value := p_value;
         p_display := p_display;
         hypothesis_accepted := np_ge diff_rate (Fin 30);
         annual_diff := annual_diff;
         five_year_diff := five_year_diff |}.

End Engine.

End Analyzer.

(** ** The Multi-Area Collector ([scraper.scrape_multiple_areas]) *)

Module Collector.

(** An entry of [areas]: [{'code': ..., 'name': ...}]. *)
Record Area := {
  code : pystr;
  name : pystr
}.

(** What [scrape_multiple_areas] prints itself, one constructor per
    [print]; the texts without data are [MsgRule] (the line of "="),
    [MsgTitle] and [MsgBreakdownTitle]. *)
Inductive message :=
| MsgRule
| MsgTitle
| MsgTarget (n_areas : nat) (pages : Z)
| MsgEstimate (seconds : Z)
| MsgAreaDone (area : pystr) (n : nat)
| MsgAreaFailed (area : pystr)
| MsgTotalAll (n : nat)
| MsgBreakdownTitle
| MsgBreakdown (area : pystr) (count : nat).

(** The log of a run: the events of each [scrape_area] call and the
    prints around them. *)
Inductive event :=
| AreaEvent (e : Scraper.event)
| Print (m : message).

(** [collections.Counter] over a list: the distinct elements in order of
    first occurrence, each with the number of its occurrences. *)
Fixpoint counter_add (k : pystr) (c : list (pystr * nat)) : list (pystr * nat) :=
  match c with
  | [] => [(k, 1%nat)]
  | (k', n) :: c' =>
      if decide (k = k') then (k', S n) :: c' else (k', n) :: counter_add k c'
  end.

Definition Counter (l : list pystr) : list (pystr * nat) :=
  fold_left (fun c k => counter_add k c) l [].

Section Collect.

Variable unicode_decimal : pychar -> option N.
Variable World : Type.
Variable requests_get : World -> pystr -> exc Scraper.Response * World.

Record state := {
  all_properties : list Scraper.ListingRecord;
  world : World;
  log : list event
}.

(** The body of [for area in areas] (lines 192-199). *)
Definition area_step (pages : Z) (st : state) (area : Area) : state :=
  let r := Scraper.scrape_area unicode_decimal World requests_get
             (code area) (name area) pages (world st) in
  let props := Scraper.st_properties _ r in
  let log := log st ++ map AreaEvent (Scraper.st_log _ r) in
  match props with
  | [] =>
      {| all_properties := all_properties st;
         world := Scraper.st_world _ r;
         log := log ++ [Print (MsgAreaFailed (name area))] |}
  | _ =>
      {| all_properties := all_properties st ++ props;
         world := Scraper.st_world _ r;
         log := log ++ [Print (MsgAreaDone (name area) (length props))] |}
  end.

(** [SuumoScraper.scrape_multiple_areas] (lines 171-214). *)
Definition scrape_multiple_areas (areas : list Area) (pages : Z) (w : World) : state :=
  let header :=
    [Print MsgRule; Print MsgTitle; Print MsgRule;
     Print (MsgTarget (length areas) pages);
     Print (MsgEstimate (Z.of_nat (length areas) * pages * 3));
     Print MsgRule] in
  let st := fold_left (area_step pages) areas
              {| all_properties := []; world := w; log := header |} in
  let area_count := Counter (map Scraper.area_name (all_properties st)) in
  {| all_properties := all_properties st;
     world := world st;
     log := log st
            ++ [Print MsgRule; Print (MsgTotalAll (length (all_properties st)));
                Print MsgBreakdownTitle]
            ++ map (fun ac => Print (MsgBreakdown (fst ac) (snd ac))) area_count
            ++ [Print MsgRule] |}.

End Collect.

End Collector.

(** ** More queries of the Property Store ([database.py]) *)

Module Queries.

(** [get_properties_by_area] (lines 96-108). *)
Definition get_properties_by_area (db : Database.DB) (area_name : pystr) : list Database.Row :=
  List.filter (fun r => bool_decide (Database.area_name r = area_name)) (Database.rows db).

(** [get_count] (lines 204-208). *)
Definition get_count (db : Database.DB) : nat := length (Database.rows db).

(** A row of the result of [get_area_stats]. *)
Record AreaStat := {
  area_name : pystr;
  count : nat;
  avg_rent : Q;
  min_rent : Q;
  max_rent : Q
}.

Definition in_area (a : pystr) (r : Database.Row) : bool :=
  bool_decide (Database.area_name r = a).

(** [GROUP BY area_name] with the aggregates of the SELECT. *)
Definition area_group (rs : list Database.Row) (a : pystr) : AreaStat :=
  let totals := map Database.total (List.filter (in_area a) rs) in
  {| area_name := a;
     count := length totals;
     avg_rent := Database.avg totals;
     min_rent := Database.minimum totals;
     max_rent := Database.maximum totals |}.

(** [ORDER BY avg_rent DESC] *)
Definition avg_desc (a b : AreaStat) : Prop := (avg_rent b <= avg_rent a)%Q.

#[global] Instance avg_desc_dec : RelDecision avg_desc.
Proof.
  intros a b. unfold avg_desc.
  destruct (Qlt_le_dec (avg_rent a) (avg_rent b)) as [H|H].
  - right. intros H'. exact (Qlt_not_le _ _ H H').
  - left. exact H.
Defined.

(** [get_area_stats] (lines 153-172). *)
Definition get_area_stats (db : Database.DB) : list AreaStat :=
  let keys := remove_dups (map Database.area_name (Database.rows db)) in
  merge_sort avg_desc (map (area_group (Database.rows db)) keys).

End Queries.

(** ** The run ([main.py]) *)

Module Pipeline.

(** [target_areas] (lines 26-29). *)
Definition target_areas : list Collector.Area :=
  [ {| Collector.code := of_ascii "13"; Collector.name := Scraper.shinjuku |};
    {| Collector.code := of_ascii "13"; Collector.name := Scraper.setagaya |} ].

Section Run.

Variable unicode_decimal : pychar -> option N.
Variable World : Type.
Variable requests_get : World -> pystr -> exc Scraper.Response * World.
Variable lib : Analyzer.Library.

(** Where a run ends: the world and the store it leaves, the number
    [save_properties] returned and the result of the hypothesis test,
    both [None] when the run stopped after the collection. *)
Record outcome := {
  out_world : World;
  out_db : Database.DB;
  out_saved : option nat;
  out_result : option (exc Analyzer.HypothesisResult)
}.

(** [main] (lines 11-60): collection, the early return on an empty
    collection, [clear_all], [save_properties] and
    [verify_hypothesis].  [db] is the store found on disk, [now] the
    time of the inserts.  The charts and the report that follow
    (lines 62-67) read the store and leave it as it is. *)
Definition main (now : Z) (w : World) (db : Database.DB) : outcome :=
  let collected :=
    Collector.scrape_multiple_areas unicode_decimal World requests_get target_areas 3 w in
  match Collector.all_properties _ collected with
  | [] =>
      {| out_world := Collector.world _ collected; out_db := db;
         out_saved := None; out_result := None |}
  | properties =>
      let db := Database.clear_all db in
      let '(db, saved) := Database.save_properties now db properties in
      {| out_world := Collector.world _ collected; out_db := db;
         out_saved := Some saved;
         out_result := Some (Analyzer.verify_hypothesis lib db) |}
  end.

End Run.

End Pipeline.

(** * Properties *)

(** ** The number parser *)

Module ExtractorSpec.
Import Scraper.

Section Rule.

Variable ud : pychar -> option N.

(** The marker is no decimal digit (U+4E07 is a letter, category Lo). *)
Hypothesis man_not_decimal : ud ch_man = None.

(** No character of the number class stands directly before a marker. *)
Definition no_number_before_man (t : pystr) : Prop :=
  forall (a : pystr) (c : pychar) (b : pystr), t = a ++ c :: ch_man :: b -> numch ud c = false.

(** [pre] does not end inside a number. *)
Definition ends_outside_number (pre : pystr) : Prop :=
  forall (a : pystr) (c : pychar), pre = a ++ [c] -> numch ud c = false.

(** [run] is a number: a non-empty run of the class. *)
Definition number_run (run : pystr) : Prop :=
  run <> [] /\ Forall (fun c => numch ud c = true) run.

(** [post] does not continue a number. *)
Definition starts_outside_number (post : pystr) : Prop :=
  match post with
  | [] => True
  | c :: _ => numch ud c = false
  end.

Lemma numch_man : numch ud ch_man = false.
Proof. unfold numch, is_digit. rewrite man_not_decimal. reflexivity. Qed.

Lemma match_num_man_complete (run post : pystr) :
  number_run run -> match_num_man ud (run ++ ch_man :: post) = Some run.
Proof.
  intros [Hne Hall]. induction run as [|c r IH]; [congruence|].
  inversion Hall as [|? ? Hc Hr]; subst. cbn [app match_num_man]. rewrite Hc.
  destruct r as [|c' r'].
  - cbn [app match_num_man]. rewrite numch_man, N.eqb_refl. reflexivity.
  - rewrite IH; [reflexivity|congruence|assumption].
Qed.

Lemma match_num_man_sound (t run : pystr) :
  match_num_man ud t = Some run ->
  number_run run /\ exists post, t = run ++ ch_man :: post.
Proof.
  revert run. induction t as [|c t IH]; intros run H; [discriminate|].
  cbn [match_num_man] in H. destruct (numch ud c) eqn:Hc; [|discriminate].
  destruct (match_num_man ud t) as [r|] eqn:Hm.
  - injection H as <-. destruct (IH r eq_refl) as [[_ Hall] [post ->]].
    split; [split; [congruence|constructor; assumption]|].
    exists post. reflexivity.
  - destruct t as [|c' t']; [discriminate|].
    destruct (N.eqb_spec c' ch_man) as [->|]; [|discriminate].
    injection H as <-. split; [split; [congruence|repeat constructor; assumption]|].
    exists t'. reflexivity.
Qed.

Lemma no_number_before_man_tail (c : pychar) (t : pystr) :
  no_number_before_man (c :: t) -> no_number_before_man t.
Proof. intros H a x b ->. apply (H (c :: a) x b). reflexivity. Qed.

Lemma ends_outside_number_tail (c : pychar) (t : pystr) :
  t <> [] -> ends_outside_number (c :: t) -> ends_outside_number t.
Proof. intros _ H a x ->. apply (H (c :: a) x). reflexivity. Qed.

Lemma match_num_man_prefix_none (pre rest : pystr) :
  pre <> [] -> ends_outside_number pre -> no_number_before_man pre ->
  match_num_man ud (pre ++ rest) = None.
Proof.
  induction pre as [|c pre IH]; intros Hne Hend Hno; [congruence|].
  cbn [app match_num_man]. destruct (numch ud c) eqn:Hc; [|reflexivity].
  destruct pre as [|c' pre'].
  - rewrite (Hend [] c eq_refl) in Hc. discriminate.
  - rewrite IH.
    + cbn [app]. destruct (N.eqb_spec c' ch_man) as [->|]; [|reflexivity].
      rewrite (Hno [] c pre' eq_refl) in Hc. discriminate.
    + congruence.
    + eapply ends_outside_number_tail; [congruence|eassumption].
    + eapply no_number_before_man_tail; eassumption.
Qed.

Lemma search_num_man_unfold (t : pystr) :
  search_num_man ud t =
  match match_num_man ud t with
  | Some r => Some r
  | None => match t with [] => None | _ :: t' => search_num_man ud t' end
  end.
Proof. destruct t; reflexivity. Qed.

Lemma search_num_man_first (pre run post : pystr) :
  ends_outside_number pre -> no_number_before_man pre -> number_run run ->
  search_num_man ud (pre ++ run ++ ch_man :: post) = Some run.
Proof.
  intros Hend Hno Hrun. induction pre as [|c pre IH].
  - rewrite search_num_man_unfold. cbn [app].
    rewrite match_num_man_complete by assumption. reflexivity.
  - rewrite search_num_man_unfold.
    rewrite match_num_man_prefix_none by (assumption || congruence).
    cbn [app]. destruct pre as [|c' pre'].
    + apply IH; [intros a x Ha; destruct a; discriminate | intros a x b Ha; destruct a; discriminate].
    + apply IH.
      * eapply ends_outside_number_tail; [congruence|eassumption].
      * eapply no_number_before_man_tail; eassumption.
Qed.

Lemma search_num_man_none (t : pystr) :
  no_number_before_man t -> search_num_man ud t = None.
Proof.
  induction t as [|c t IH]; intros Hno.
  - reflexivity.
  - rewrite search_num_man_unfold. destruct (match_num_man ud (c :: t)) as [r|] eqn:Hm.
    + apply match_num_man_sound in Hm as [[Hne Hall] [post Ht]].
      destruct (exists_last Hne) as [r' [x ->]].
      rewrite Forall_app in Hall. destruct Hall as [_ Hx]. inversion Hx as [|? ? Hcx _]; subst.
      rewrite <- app_assoc in Ht. cbn [app] in Ht.
      rewrite (Hno _ _ _ Ht) in Hcx. discriminate.
    + apply IH. eapply no_number_before_man_tail; eassumption.
Qed.

Lemma findall_num_from_run (cur run t : pystr) :
  Forall (fun c => numch ud c = true) run ->
  findall_num_from ud cur (run ++ t) = findall_num_from ud (rev run ++ cur) t.
Proof.
  intros Hall. revert cur. induction Hall as [|c r Hc _ IH]; intros cur; [reflexivity|].
  cbn [app findall_num_from rev]. rewrite Hc, IH, <- app_assoc. reflexivity.
Qed.

Lemma findall_num_from_skip (pre t : pystr) :
  Forall (fun c => numch ud c = false) pre ->
  findall_num_from ud [] (pre ++ t) = findall_num_from ud [] t.
Proof.
  induction 1 as [|c r Hc _ IH]; [reflexivity|].
  cbn [app findall_num_from]. rewrite Hc. exact IH.
Qed.

Lemma flush_run (run : pystr) : run <> [] -> flush (rev run) = [run].
Proof.
  intros Hne. unfold flush. destruct (rev run) as [|x l] eqn:Hr.
  - apply (f_equal (@rev _)) in Hr. rewrite rev_involutive in Hr. contradiction.
  - rewrite <- Hr, rev_involutive. reflexivity.
Qed.

Lemma findall_num_first (pre run post : pystr) :
  Forall (fun c => numch ud c = false) pre -> number_run run ->
  starts_outside_number post ->
  exists rest, findall_num ud (pre ++ run ++ post) = run :: rest.
Proof.
  intros Hpre [Hne Hall] Hpost. unfold findall_num.
  rewrite findall_num_from_skip, findall_num_from_run, app_nil_r by assumption.
  destruct post as [|c post]; cbn [findall_num_from].
  - exists []. apply flush_run, Hne.
  - cbn in Hpost. rewrite Hpost, flush_run by assumption. eexists. reflexivity.
Qed.

Lemma findall_num_none (t : pystr) :
  Forall (fun c => numch ud c = false) t -> findall_num ud t = [].
Proof.
  intros H. unfold findall_num. rewrite <- (app_nil_r t).
  rewrite findall_num_from_skip by assumption. reflexivity.
Qed.

Lemma contains_man_app (pre run post : pystr) : contains_man (pre ++ run ++ ch_man :: post) = true.
Proof.
  unfold contains_man. rewrite !existsb_app. cbn [existsb]. rewrite N.eqb_refl.
  rewrite !orb_true_r. reflexivity.
Qed.

Lemma no_man_no_number_before (text : pystr) :
  contains_man text = false -> no_number_before_man text.
Proof.
  intros H a c b ->. pose proof (contains_man_app a [c] b) as H'. cbn [app] in H'.
  rewrite H' in H. discriminate.
Qed.

Lemma search_guard_none (text : pystr) :
  no_number_before_man text ->
  (if contains_man text then search_num_man ud text else None) = None.
Proof.
  intros H. destruct (contains_man text); [|reflexivity]. apply search_num_man_none, H.
Qed.

(** The text with thousands separators and currency suffix removed
    (line 164). *)
Definition stripped (text : pystr) : pystr :=
  remove_char ch_yen (remove_char ch_comma text).

(** What the two branches select.  When a number stands directly before
    a marker and [float] reads it, the result is the first such number
    times 10000.  When no number stands directly before a marker (as in
    every text without marker), the result is the first number of the
    text stripped of commas and currency suffix, if [float] reads it, and
    [None] when the stripped text holds no character of a number.  A
    number is a maximal run of digits and dots. *)
Lemma extract_number_rule (text : pystr) :
  (forall (pre run post : pystr) (v : Q),
      text = pre ++ run ++ ch_man :: post ->
      ends_outside_number pre -> no_number_before_man pre -> number_run run ->
      py_float ud run = Ret v ->
      _extract_number ud text = Ret (Some (v * 10000)%Q))
  /\ (forall (pre run post : pystr) (v : Q),
         no_number_before_man text ->
         stripped text = pre ++ run ++ post ->
         Forall (fun c => numch ud c = false) pre -> number_run run ->
         starts_outside_number post ->
         py_float ud run = Ret v ->
         _extract_number ud text = Ret (Some v))
  /\ (no_number_before_man text ->
      Forall (fun c => numch ud c = false) (stripped text) ->
      _extract_number ud text = Ret None)
  /\ (contains_man text = false -> no_number_before_man text).
Proof.
  unfold _extract_number. cbv zeta. fold (stripped text).
  split; [|split; [|split; [|apply no_man_no_number_before]]].
  - intros pre run post v -> Hend Hno Hrun Hv.
    rewrite contains_man_app, search_num_man_first, Hv by assumption. reflexivity.
  - intros pre run post v Hno Hs Hpre Hrun Hpost Hv.
    rewrite search_guard_none by assumption.
    destruct (findall_num_first pre run post Hpre Hrun Hpost) as [rest Hf].
    rewrite Hs, Hf, Hv. reflexivity.
  - intros Hno Hall. rewrite search_guard_none, findall_num_none by assumption.
    reflexivity.
Qed.

End Rule.

Definition txt (s : String.string) : pystr := of_ascii s.

(** The docstring's two examples, and texts around them. *)
Example extract_man : _extract_number basic_decimal (txt "8.5" ++ [ch_man; ch_yen]) = Ret (Some (850000 # 10)).
Proof. vm_compute. reflexivity. Qed.

Example extract_yen : _extract_number basic_decimal (txt "5000" ++ [ch_yen]) = Ret (Some (5000 # 1)).
Proof. vm_compute. reflexivity. Qed.

Example extract_hyphen : _extract_number basic_decimal (txt "-") = Ret None.
Proof. vm_compute. reflexivity. Qed.

Example extract_man_without_number :
  _extract_number basic_decimal (txt "8.5 " ++ [ch_man; ch_yen]) = Ret (Some (85 # 10)).
Proof. vm_compute. reflexivity. Qed.

Example extract_two_dots : _extract_number basic_decimal (txt "1.2.3") = Raise ValueError.
Proof. vm_compute. reflexivity. Qed.

Lemma extract_number_rule_witness :
  _extract_number basic_decimal (txt "8.5" ++ [ch_man; ch_yen]) = Ret (Some ((85 # 10) * 10000)%Q)
  /\ _extract_number basic_decimal (txt "5,000" ++ [ch_yen]) = Ret (Some (5000 # 1)).
Proof.
  split.
  - apply (proj1 (extract_number_rule basic_decimal eq_refl _) [] (txt "8.5") [ch_yen]).
    + reflexivity.
    + intros a c Ha. destruct a; discriminate.
    + intros a c b Ha. destruct a; discriminate.
    + split; [discriminate|]. repeat constructor.
    + reflexivity.
  - apply (proj1 (proj2 (extract_number_rule basic_decimal eq_refl _)) [] (txt "5000") []).
    + intros a c b Ha. do 6 (destruct a as [|? a]; [discriminate|]).
      destruct a; discriminate.
    + reflexivity.
    + constructor.
    + split; [discriminate|]. repeat constructor.
    + exact I.
    + reflexivity.
Defined.

(** C1.  On "1,000万円" the parser returns 0: the marker branch searches
    the text as it is, so the number before the marker is the run "000"
    after the comma, and the commas are stripped in the other branch
    only, where "1,000円" parses to 1000.  Without the comma, "1000万円"
    parses to 1000 times 10000. *)
Theorem extract_number_comma_before_man :
  _extract_number basic_decimal (txt "1,000" ++ [ch_man; ch_yen]) = Ret (Some (0 # 1))
  /\ _extract_number basic_decimal (txt "1,000" ++ [ch_yen]) = Ret (Some (1000 # 1))
  /\ _extract_number basic_decimal (txt "1000" ++ [ch_man; ch_yen])
     = Ret (Some (10000000 # 1)).
Proof. vm_compute. repeat split. Qed.

(** C2.  On the text "." the parser raises: the run class admits a lone
    dot, which [float] rejects, so the text without any number does not
    reach [return None].  This holds for every decimal table. *)
Theorem extract_number_raises_on_dot (ud : pychar -> option N) :
  _extract_number ud [ch_dot] = Raise ValueError.
Proof.
  assert (Hn : numch ud ch_dot = true) by (unfold numch; apply orb_true_r).
  unfold _extract_number. change (contains_man [ch_dot]) with false. cbv iota zeta.
  change (remove_char ch_yen (remove_char ch_comma [ch_dot])) with [ch_dot].
  unfold findall_num. cbn [findall_num_from]. rewrite Hn. reflexivity.
Qed.

End ExtractorSpec.

(** ** The Field Extractor and the Area Collector *)

Module ScraperSpec.
Import Scraper.

(** The invariant of a listing record. *)
Definition record_ok (r : ListingRecord) : Prop :=
  (total r == rent r + admin_fee r)%Q /\ (10000 <= rent r)%Q /\ (0 <= admin_fee r)%Q.

(** The URLs requested, in order. *)
Definition requested (log : list event) : list pystr :=
  omap (fun e => match e with Get url => Some url | _ => None end) log.

Section Collector.

Variable ud : pychar -> option N.
Variable World : Type.
Variable requests_get : World -> pystr -> exc Response * World.

Lemma py_float_nonneg (s : pystr) (q : Q) : py_float ud s = Ret q -> (0 <= q)%Q.
Proof.
  unfold py_float. destruct (split_dot s) as [ip fp].
  destruct (ip ++ _) as [|c ds]; [discriminate|].
  destruct (digits_value ud 0 (c :: ds)) as [m|]; [|discriminate].
  intros [= <-]. unfold Qle. cbn. lia.
Qed.

Lemma extract_number_nonneg (t : pystr) (q : Q) :
  _extract_number ud t = Ret (Some q) -> (0 <= q)%Q.
Proof.
  unfold _extract_number.
  destruct (if contains_man t then search_num_man ud t else None) as [g|].
  - destruct (py_float ud g) as [e|v] eqn:Hv; [discriminate|].
    intros [= <-]. apply py_float_nonneg in Hv. apply Qmult_le_0_compat; [assumption|discriminate].
  - cbv zeta. destruct (findall_num ud _) as [|n0 ns]; [discriminate|].
    destruct (py_float ud n0) as [e|v] eqn:Hv; [discriminate|].
    intros [= <-]. eapply py_float_nonneg, Hv.
Qed.

Lemma or_zero_nonneg (r : option Q) :
  (forall q, r = Some q -> (0 <= q)%Q) -> (0 <= or_zero r)%Q.
Proof.
  intros H. destruct r as [v|]; cbn; [|apply Qle_refl].
  destruct (Qeq_bool v 0); [apply Qle_refl|]. apply H. reflexivity.
Qed.

Lemma extract_room_ok (name address area : pystr) (room : Room) (r : ListingRecord) :
  extract_room ud name address area room = Ret (Some r) -> record_ok r.
Proof.
  unfold extract_room. destruct (rent_text room) as [pt|]; [|discriminate].
  destruct (_extract_number ud pt) as [e|[price|]]; cbn [mbind exc_bind]; try discriminate.
  destruct (Qle_bool 10000 price) eqn:Hp; cbn [negb]; [|discriminate].
  apply Qle_bool_iff in Hp.
  assert (Hadm : forall a : Q, (0 <= a)%Q ->
            Ret (Some {| name := name; address := address; rent := price; admin_fee := a;
                         total := (price + a)%Q;
                         layout := default_text (madori_text room);
                         area_size := default_text (menseki_text room);
                         area_name := area |}) = Ret (Some r) -> record_ok r).
  { intros a Ha [= <-]. unfold record_ok. cbn [total rent admin_fee].
    split; [apply Qeq_refl|split; assumption]. }
  destruct (admin_text room) as [at_|]; cbn [mbind exc_bind].
  - destruct (decide (at_ = [ch_hyphen])); cbn [mbind exc_bind].
    + apply Hadm, Qle_refl.
    + destruct (_extract_number ud at_) as [e|res] eqn:Ha; cbn [mbind exc_bind]; [discriminate|].
      apply Hadm, or_zero_nonneg. intros q ->. eapply extract_number_nonneg, Ha.
  - apply Hadm, Qle_refl.
Qed.

Lemma rooms_loop_ok (name address area : pystr) (rs : list Room) (props : list ListingRecord) :
  Forall record_ok props -> Forall record_ok (rooms_loop ud name address area rs props).
Proof.
  unfold rooms_loop. revert props. induction rs as [|room rs IH]; intros props Hp; [exact Hp|].
  cbn [fold_left]. apply IH.
  destruct (extract_room ud name address area room) as [e|[r|]] eqn:Hr; try exact Hp.
  apply Forall_app. split; [exact Hp|]. constructor; [|constructor].
  eapply extract_room_ok, Hr.
Qed.

Lemma cassettes_ok (area : pystr) (cs : list Cassette) (props : list ListingRecord) :
  Forall record_ok props -> Forall record_ok (fold_left (cassette_step ud area) cs props).
Proof.
  revert props. induction cs as [|c cs IH]; intros props Hp; [exact Hp|].
  cbn [fold_left]. apply IH. unfold cassette_step.
  destruct (title_text c); [apply rooms_loop_ok, Hp|exact Hp].
Qed.

Lemma page_step_ok (code area : pystr) (pages : Z) (st : loop_state World) (page : Z) :
  Forall record_ok (st_properties _ st) ->
  Forall record_ok (st_properties _ (page_step ud World requests_get code area pages st page)).
Proof.
  intros Hp. unfold page_step.
  destruct (requests_get _ _) as [[e|resp] w]; [exact Hp|].
  destruct (negb _); [exact Hp|].
  destruct (cassettos resp) as [|c cs] eqn:Hcs; [exact Hp|].
  cbn [st_properties]. apply cassettes_ok, Hp.
Qed.

Lemma pages_ok (code area : pystr) (pages : Z) (ps : list Z) (st : loop_state World) :
  Forall record_ok (st_properties _ st) ->
  Forall record_ok
    (st_properties _ (fold_left (page_step ud World requests_get code area pages) ps st)).
Proof.
  revert st. induction ps as [|p ps IH]; intros st Hp; [exact Hp|].
  cbn [fold_left]. apply IH, page_step_ok, Hp.
Qed.

Lemma scrape_area_ok (area_code area_name : pystr) (pages : Z) (w : World) :
  Forall record_ok
    (st_properties _ (scrape_area ud World requests_get area_code area_name pages w)).
Proof.
  unfold scrape_area. destruct (AREA_CODES !! area_name) as [[|c code]|].
  - constructor.
  - apply pages_ok. constructor.
  - constructor.
Qed.

(** A room without a usable price: no price tag, no number in the price
    text, or a price under 10000. *)
Definition price_unusable (room : Room) : Prop :=
  rent_text room = None
  \/ exists t, rent_text room = Some t
       /\ (_extract_number ud t = Ret None
           \/ exists p, _extract_number ud t = Ret (Some p) /\ (p < 10000)%Q).

(** C3.  Every record [scrape_area] returns, whatever the pages hold,
    has [total == rent + admin_fee], [rent >= 10000] and
    [admin_fee >= 0]; a room whose price is absent or under 10000 adds no
    record. *)
Theorem scrape_area_records_ok (area_code area_name : pystr) (pages : Z) (w : World) :
  Forall record_ok
    (st_properties _ (scrape_area ud World requests_get area_code area_name pages w))
  /\ (forall (name address area : pystr) (room : Room) (props : list ListingRecord),
         price_unusable room ->
         rooms_loop ud name address area [room] props = props).
Proof.
  split.
  - apply scrape_area_ok.
  - intros name address area room props Hbad. unfold rooms_loop, extract_room. cbn [fold_left].
    destruct Hbad as [->|[t [-> [->| [p [-> Hp]]]]]]; cbn [mbind exc_bind]; try reflexivity.
    destruct (Qle_bool 10000 p) eqn:Hle; [|reflexivity].
    apply Qle_bool_iff in Hle. exfalso. exact (Qlt_not_le _ _ Hp Hle).
Qed.

Lemma AREA_CODES_unsupported (area_name : pystr) :
  area_name <> shinjuku -> area_name <> setagaya -> AREA_CODES !! area_name = None.
Proof.
  intros H1 H2. unfold AREA_CODES, AREA_CODES_items. cbn [list_to_map foldr fst snd].
  rewrite !lookup_insert_ne by congruence. apply lookup_empty.
Qed.

Lemma AREA_CODES_supported (area_name sc : pystr) :
  AREA_CODES !! area_name = Some sc ->
  (area_name = shinjuku /\ sc = of_ascii "13104")
  \/ (area_name = setagaya /\ sc = of_ascii "13112").
Proof.
  unfold AREA_CODES, AREA_CODES_items. cbn [list_to_map foldr fst snd]. intros H.
  destruct (decide (area_name = shinjuku)) as [->|H1].
  - rewrite lookup_insert_eq in H. left. split; congruence.
  - rewrite lookup_insert_ne in H by congruence.
    destruct (decide (area_name = setagaya)) as [->|H2].
    + rewrite lookup_insert_eq in H. right. split; congruence.
    + rewrite lookup_insert_ne, lookup_empty in H by congruence. discriminate.
Qed.

(** C9.  For an area name other than the two supported ones,
    [scrape_area] returns the empty list after printing the diagnostic,
    requests no URL and leaves the world as it was. *)
Theorem scrape_area_unsupported (area_code area_name : pystr) (pages : Z) (w : World) :
  area_name <> shinjuku -> area_name <> setagaya ->
  scrape_area ud World requests_get area_code area_name pages w =
  {| st_properties := [];
     st_world := w;
     st_log := [Print (MsgStart area_name);
                Print (MsgUnsupported area_name);
                Print (MsgSupportedAreas [shinjuku; setagaya])] |}
  /\ requested (st_log _ (scrape_area ud World requests_get area_code area_name pages w)) = [].
Proof.
  intros H1 H2. unfold scrape_area.
  rewrite AREA_CODES_unsupported by assumption. split; reflexivity.
Qed.

Lemma requested_page_step (sc area : pystr) (pages : Z) (st : loop_state World) (page : Z) :
  requested (st_log _ (page_step ud World requests_get sc area pages st page))
  = requested (st_log _ st) ++ [build_url sc page].
Proof.
  unfold page_step, requested.
  destruct (requests_get _ _) as [[e|resp] w'].
  - cbn [st_log]. rewrite !omap_app. cbn. rewrite app_nil_r. reflexivity.
  - destruct (negb _).
    + cbn [st_log]. rewrite !omap_app. cbn. rewrite app_nil_r. reflexivity.
    + destruct (cassettos resp); cbn [st_log]; rewrite !omap_app; cbn;
        rewrite app_nil_r; reflexivity.
Qed.

Lemma requested_pages (sc area : pystr) (pages : Z) (ps : list Z) (st : loop_state World) :
  requested (st_log _ (fold_left (page_step ud World requests_get sc area pages) ps st))
  = requested (st_log _ st) ++ map (build_url sc) ps.
Proof.
  revert st. induction ps as [|p ps IH]; intros st; cbn [fold_left map].
  - rewrite app_nil_r. reflexivity.
  - rewrite IH, requested_page_step, <- app_assoc. reflexivity.
Qed.

(** C10.  Two runs of [scrape_area] that differ only in [area_code]
    end in the same state: the same records, world and log.  The URLs
    requested are those of the code [AREA_CODES] holds for the area
    name, for the pages 1 to [pages]. *)
Theorem scrape_area_ignores_area_code (code1 code2 area_name : pystr) (pages : Z) (w : World) :
  scrape_area ud World requests_get code1 area_name pages w
  = scrape_area ud World requests_get code2 area_name pages w
  /\ (forall sc : pystr,
         AREA_CODES !! area_name = Some sc ->
         requested (st_log _ (scrape_area ud World requests_get code1 area_name pages w))
         = map (build_url sc) (page_range pages)).
Proof.
  split; [reflexivity|].
  intros sc Hsc. unfold scrape_area. rewrite Hsc.
  destruct (AREA_CODES_supported _ _ Hsc) as [[_ ->]|[_ ->]];
    cbv match beta; cbn [of_ascii String.list_ascii_of_string map];
    rewrite requested_pages; reflexivity.
Qed.

End Collector.

Definition shibuya : pystr := [28171; 35895; 21306]%N.   (* U+6E0B U+8C37 U+533A *)

(** A network on which every request fails. *)
Definition offline (w : unit) (url : pystr) : exc Response * unit := (Raise RequestException, w).

Lemma scrape_area_unsupported_witness :
  scrape_area basic_decimal unit offline (of_ascii "13") shibuya 3 tt =
  {| st_properties := [];
     st_world := tt;
     st_log := [Print (MsgStart shibuya);
                Print (MsgUnsupported shibuya);
                Print (MsgSupportedAreas [shinjuku; setagaya])] |}
  /\ requested (st_log _ (scrape_area basic_decimal unit offline (of_ascii "13") shibuya 3 tt)) = [].
Proof.
  apply (scrape_area_unsupported basic_decimal unit offline (of_ascii "13") shibuya 3 tt);
    discriminate.
Defined.

(** One page of Shinjuku with one building: a room at 8.5万円 with a fee
    of 5000円, a room without a price, and a room whose fee reads ".".
    Every other request fails. *)
Definition room_a : Room :=
  {| rent_text := Some (of_ascii "8.5" ++ [ch_man; ch_yen]);
     admin_text := Some (of_ascii "5000" ++ [ch_yen]);
     madori_text := Some (of_ascii "1K");
     menseki_text := None |}.

Definition room_b : Room :=
  {| rent_text := Some [ch_hyphen]; admin_text := None;
     madori_text := None; menseki_text := None |}.

Definition room_c : Room :=
  {| rent_text := Some (of_ascii "12" ++ [ch_man; ch_yen]);
     admin_text := Some [ch_dot];
     madori_text := Some (of_ascii "2DK");
     menseki_text := None |}.

Definition page1 : Response :=
  {| status_code := 200;
     cassettos := [ {| title_text := Some (of_ascii "A");
                       address_text := None;
                       rooms := [room_a; room_b; room_c] |} ] |}.

Definition one_page (n : nat) (url : list N) : exc Response * nat :=
  (if decide (url = build_url (of_ascii "13104") 1) then Ret page1
   else Raise RequestException, S n).

Example scrape_one_page :
  st_properties _ (scrape_area basic_decimal nat one_page (of_ascii "13") shinjuku 2 0%nat)
  = [ {| name := of_ascii "A"; address := [];
         rent := (85 # 10) * 10000; admin_fee := 5000 # 1;
         total := (85 # 10) * 10000 + (5000 # 1);
         layout := of_ascii "1K"; area_size := []; area_name := shinjuku |} ]
  /\ st_world _ (scrape_area basic_decimal nat one_page (of_ascii "13") shinjuku 2 0%nat) = 2%nat.
Proof. vm_compute. split; reflexivity. Qed.

End ScraperSpec.

(** ** The Property Store *)

Module DatabaseSpec.
Import Database.

(** [total == rent + admin_fee] on a stored row; a NULL fee breaks it. *)
Definition row_total_ok (r : Row) : Prop :=
  match admin_fee r with
  | Some fee => (total r == rent r + fee)%Q
  | None => False
  end.

(** A row holds the rent, fee and total of a record as they were given. *)
Definition stored_as (p : Scraper.ListingRecord) (r : Row) : Prop :=
  total r = Scraper.total p
  /\ rent r = Scraper.rent p
  /\ admin_fee r = Some (Scraper.admin_fee p).

Definition record_total_ok (p : Scraper.ListingRecord) : Prop :=
  (Scraper.total p == Scraper.rent p + Scraper.admin_fee p)%Q.

(** The sample record of [database.main] (lines 216-225). *)
Definition sample : Scraper.ListingRecord :=
  {| Scraper.name := [12486; 12473; 12488; 12510; 12531; 12471; 12519; 12531]%N;
     Scraper.address := [26481; 20140; 37117; 26032; 23487; 21306]%N;
     Scraper.rent := 80000;
     Scraper.admin_fee := 5000;
     Scraper.total := 85000;
     Scraper.layout := of_ascii "1K";
     Scraper.area_size := [50; 53; 109; 178]%N;
     Scraper.area_name := Scraper.shinjuku |}.

(** The same record with a total that is not the sum. *)
Definition sample_wrong_total : Scraper.ListingRecord :=
  {| Scraper.name := Scraper.name sample;
     Scraper.address := Scraper.address sample;
     Scraper.rent := 80000;
     Scraper.admin_fee := 5000;
     Scraper.total := 1;
     Scraper.layout := Scraper.layout sample;
     Scraper.area_size := Scraper.area_size sample;
     Scraper.area_name := Scraper.area_name sample |}.

Definition empty_db : DB := {| rows := []; last_id := 0 |}.

Lemma insert_all_rows (now : Z) (ps : list Scraper.ListingRecord) (db : DB) :
  exists new,
    rows (fold_left (insert_property now) ps db) = rows db ++ new
    /\ Forall2 stored_as ps new.
Proof.
  revert db. induction ps as [|p ps IH]; intros db; cbn [fold_left].
  - exists []. split; [symmetry; apply app_nil_r|constructor].
  - destruct (IH (insert_property now db p)) as [new [Hrows Hall]].
    eexists (_ :: new). split.
    + rewrite Hrows. cbn [insert_property rows]. rewrite <- app_assoc. reflexivity.
    + constructor; [|exact Hall]. repeat split.
Qed.

Lemma stored_as_total_ok (p : Scraper.ListingRecord) (r : Row) :
  stored_as p r -> (row_total_ok r <-> record_total_ok p).
Proof.
  intros (Ht & Hr & Ha). unfold row_total_ok, record_total_ok.
  rewrite Ha, Ht, Hr. reflexivity.
Qed.

(** C7 (as amended).  [save_properties] appends one row per record, and
    each row holds the record's rent, fee and total as they were given:
    the total is a bound parameter, not a sum computed at the insert.  A
    stored row satisfies [total == rent + admin_fee] exactly when its
    record did. *)
Theorem save_properties_keeps_total (now : Z) (db : DB) (ps : list Scraper.ListingRecord) :
  exists new,
    rows (fst (save_properties now db ps)) = rows db ++ new
    /\ snd (save_properties now db ps) = length new
    /\ Forall2 stored_as ps new
    /\ Forall2 (fun p r => row_total_ok r <-> record_total_ok p) ps new.
Proof.
  destruct (insert_all_rows now ps db) as [new [Hrows Hall]].
  exists new. cbn [save_properties fst snd]. repeat split.
  - exact Hrows.
  - apply Forall2_length in Hall. exact Hall.
  - exact Hall.
  - eapply Forall2_impl; [exact Hall|]. intros p r. apply stored_as_total_ok.
Qed.

(** C7, as the specification words it, fails: a record whose total is not
    the sum is persisted with that total. *)
Lemma save_properties_trusts_total :
  exists r,
    rows (fst (save_properties 0 empty_db [sample_wrong_total])) = [r]
    /\ total r = 1%Q /\ rent r = 80000%Q /\ admin_fee r = Some 5000%Q
    /\ ~ row_total_ok r.
Proof.
  eexists. split; [reflexivity|]. cbn. repeat split. unfold row_total_ok. cbn.
  intros H. vm_compute in H. discriminate.
Qed.

(** What [main.py] stores: the rows made from the records of
    [scrape_area] satisfy the invariant, because the scraper computed
    each total as the sum. *)
Lemma scraped_rows_total_ok (ud : pychar -> option N) (World : Type)
    (requests_get : World -> pystr -> exc Scraper.Response * World)
    (area_code area_name : pystr) (pages : Z) (w : World) (now : Z) (db : DB) :
  exists new,
    rows (fst (save_properties now db
                 (Scraper.st_properties _
                    (Scraper.scrape_area ud World requests_get area_code area_name pages w))))
    = rows db ++ new
    /\ Forall row_total_ok new.
Proof.
  pose proof (ScraperSpec.scrape_area_ok ud World requests_get area_code area_name pages w) as Hok.
  destruct (insert_all_rows now (Scraper.st_properties _
              (Scraper.scrape_area ud World requests_get area_code area_name pages w)) db)
    as [new [Hrows Hall]].
  exists new. split; [exact Hrows|]. clear Hrows.
  induction Hall as [|p r ps rs Hpr _ IH]; [constructor|].
  inversion Hok as [|? ? Hp Hps]; subst. constructor; [|apply IH, Hps].
  apply (stored_as_total_ok p r Hpr). exact (proj1 Hp).
Qed.

(** The store after [database.main] saved its sample. *)
Definition sample_db : DB := fst (save_properties 0 empty_db [sample]).

Lemma filter_all_true {A} (f : A -> bool) (l : list A) :
  (forall x, f x = true) -> List.filter f l = l.
Proof.
  intros H. induction l as [|x l IH]; [reflexivity|]. cbn. rewrite H, IH. reflexivity.
Qed.

(** With no argument supplied the filter is [1=1]. *)
Lemma conditions_none (db : DB) :
  get_properties_by_conditions db None None None None = rows db.
Proof. unfold get_properties_by_conditions. apply filter_all_true. reflexivity. Qed.

(** With both bounds supplied and non-zero, the rows returned are those
    with [min_rent <= total <= max_rent]. *)
Lemma conditions_rent_range (db : DB) (x y : Q) (r : Row) :
  ~ (x == 0)%Q -> ~ (y == 0)%Q ->
  In r (get_properties_by_conditions db None (Some x) (Some y) None)
  <-> In r (rows db) /\ (x <= total r)%Q /\ (total r <= y)%Q.
Proof.
  intros Hx Hy. unfold get_properties_by_conditions, build_conditions, truthy_num, truthy_str.
  destruct (Qeq_bool x 0) eqn:Ex; [apply Qeq_bool_iff in Ex; contradiction|].
  destruct (Qeq_bool y 0) eqn:Ey; [apply Qeq_bool_iff in Ey; contradiction|].
  cbn [negb app default]. rewrite filter_In. unfold where_clause. cbn [forallb holds].
  rewrite andb_true_r, andb_true_iff, !Qle_bool_iff. reflexivity.
Qed.

(** C6.  A bound of 0 is dropped from the filter: [if max_rent:] is
    false for 0 as it is for [None].  With [min_rent=1, max_rent=0] the
    store of one row with total 85000 returns that row, although
    [1 <= 85000 <= 0] is false. *)
Theorem conditions_zero_bound_dropped :
  build_conditions None (Some 1%Q) (Some 0%Q) None = [TotalGe 1%Q]
  /\ exists r,
       get_properties_by_conditions sample_db None (Some 1%Q) (Some 0%Q) None = [r]
       /\ total r = 85000%Q
       /\ ~ (total r <= 0)%Q.
Proof.
  split; [reflexivity|]. eexists. split; [reflexivity|]. split; [reflexivity|].
  cbn. intros H. vm_compute in H. apply H. reflexivity.
Qed.

#[global] Instance avg_desc_trans : Transitive avg_desc.
Proof. intros a b c Hab Hbc. unfold avg_desc in *. eapply Qle_trans; eassumption. Qed.

#[global] Instance avg_desc_total : Total avg_desc.
Proof.
  intros a b. unfold avg_desc.
  destruct (Qlt_le_dec (avg_rent a) (avg_rent b)) as [H|H]; [right|left].
  - apply Qlt_le_weak, H.
  - exact H.
Qed.

(** The rows of a layout, as the specification groups them. *)
Definition rows_with_layout (l : pystr) (db : DB) : list Row :=
  List.filter (has_layout l) (rows db).

Lemma filter_filter_implied {A} (f g : A -> bool) (l : list A) :
  (forall x, f x = true -> g x = true) ->
  List.filter f (List.filter g l) = List.filter f l.
Proof.
  intros H. induction l as [|x l IH]; [reflexivity|]. cbn.
  destruct (g x) eqn:Hg; cbn.
  - rewrite IH. reflexivity.
  - destruct (f x) eqn:Hf; [|exact IH]. rewrite (H x Hf) in Hg. discriminate.
Qed.

Lemma has_layout_nonempty (l : pystr) (r : Row) :
  l <> [] -> has_layout l r = true -> layout_nonempty r = true.
Proof.
  unfold has_layout, layout_nonempty. intros Hl H. apply bool_decide_eq_true in H.
  rewrite H. destruct l; [contradiction|reflexivity].
Qed.

(** What a reported group is: a non-empty layout with at least five
    rows, and the count and mean of exactly the rows of that layout. *)
Definition group_ok (db : DB) (g : LayoutStat) : Prop :=
  (5 <= count g)%nat
  /\ stat_layout g <> []
  /\ count g = length (rows_with_layout (stat_layout g) db)
  /\ avg_rent g = avg (map total (rows_with_layout (stat_layout g) db)).

(** C8.  Every group of [get_layout_stats] has at least five rows and a
    non-empty layout, its count and mean are those of the rows with that
    layout, and the groups come by mean total, highest first. *)
Theorem layout_stats_ok (db : DB) :
  Forall (group_ok db) (get_layout_stats db)
  /\ StronglySorted (fun a b => (avg_rent b <= avg_rent a)%Q) (get_layout_stats db).
Proof.
  unfold get_layout_stats. cbv zeta. split.
  - rewrite merge_sort_Permutation. apply Forall_forall. intros g Hg.
    apply list_elem_of_In, filter_In in Hg. destruct Hg as [Hg H5].
    apply in_map_iff in Hg. destruct Hg as [l [<- Hl]].
    apply list_elem_of_In, elem_of_remove_dups, list_elem_of_omap in Hl.
    destruct Hl as [r [Hr Hlr]].
    apply list_elem_of_In, filter_In in Hr. destruct Hr as [_ Hne].
    assert (Hl : l <> []).
    { unfold layout_nonempty in Hne. rewrite Hlr in Hne. destruct l; [discriminate|congruence]. }
    unfold group_ok, layout_group, rows_with_layout in *. cbn [count stat_layout avg_rent] in *.
    rewrite filter_filter_implied in * by (intros x; apply has_layout_nonempty, Hl).
    apply Nat.leb_le in H5. rewrite length_map in *. repeat split; assumption || reflexivity.
  - apply (StronglySorted_merge_sort avg_desc).
Qed.

End DatabaseSpec.

(** ** The Hypothesis Engine *)

Module AnalyzerSpec.
Import Analyzer.

(** The comparison group of an area, said without the code's selection:
    [group_of area rows ts] holds when [ts] lists, in stored order, the
    totals of the rows whose area is [area]. *)
Inductive group_of (area : pystr) : list Database.Row -> list Q -> Prop :=
| group_nil : group_of area [] []
| group_keep r rs ts :
    Database.area_name r = area -> group_of area rs ts ->
    group_of area (r :: rs) (Database.total r :: ts)
| group_skip r rs ts :
    Database.area_name r <> area -> group_of area rs ts ->
    group_of area (r :: rs) ts.

(** The series pandas holds for a group of the store: [object] dtype when
    the store has no row at all, [float64] otherwise. *)
Definition group_series (db : Database.DB) (ts : list Q) : Series :=
  {| object_dtype := Nat.eqb (length (Database.rows db)) 0;
     values := ts |}.

(** A library with another t-test. *)
Definition with_ttest (lib : Library)
    (t : Series -> Series -> exc (npfloat * npfloat)) : Library :=
  {| fl := fl lib;
     series_mean := series_mean lib;
     series_std := series_std lib;
     ttest_ind := t |}.

(** The relative difference in percent, as the specification writes it:
    (mean(a) - mean(b)) / mean(b) * 100, in the arithmetic of [lib]. *)
Definition relative_difference_pct (lib : Library) (a b : Series) : npfloat :=
  np_mul lib (np_div lib (np_sub lib (mean lib a) (mean lib b)) (mean lib b)) (Fin 100).

Lemma group_of_totals (area : pystr) (rs : list Database.Row) :
  group_of area rs (totals_of area rs).
Proof.
  unfold totals_of. induction rs as [|r rs IH]; [constructor|].
  cbn [List.filter]. destruct (bool_decide _) eqn:E.
  - apply bool_decide_eq_true in E. cbn [map]. constructor; assumption.
  - apply bool_decide_eq_false in E. constructor; assumption.
Qed.

Lemma group_of_unique (area : pystr) (rs : list Database.Row) (ts : list Q) :
  group_of area rs ts -> ts = totals_of area rs.
Proof.
  unfold totals_of. induction 1 as [|r rs ts Hr _ IH|r rs ts Hr _ IH];
    [reflexivity| |]; cbn [List.filter].
  - rewrite bool_decide_eq_true_2 by exact Hr. cbn [map]. f_equal. exact IH.
  - rewrite bool_decide_eq_false_2 by exact Hr. exact IH.
Qed.

Lemma group_series_column (area : pystr) (db : Database.DB) (ts : list Q) :
  group_of area (Database.rows db) ts ->
  total_column area (Database.rows db) = group_series db ts.
Proof.
  intros H. rewrite (group_of_unique _ _ _ H). unfold total_column, group_series.
  destruct (Database.rows db); reflexivity.
Qed.

(** A group of fewer than two values has no standard deviation. *)
Lemma std_small (lib : Library) (s : Series) :
  (length (values s) < 2)%nat -> std lib s = NaN.
Proof. unfold std. destruct (values s) as [|x [|y xs]]; cbn; [reflexivity..|lia]. Qed.

Lemma with_ttest_pct (lib : Library) (t : Series -> Series -> exc (npfloat * npfloat))
    (a b : Series) :
  relative_difference_pct (with_ttest lib t) a b = relative_difference_pct lib a b.
Proof. reflexivity. Qed.

(** The rate step by step, for two groups with a finite mean each and a
    non-zero Setagaya mean: the difference, the quotient and the product
    by 100, each rounded. *)
Lemma relative_difference_pct_steps (lib : Library) (db : Database.DB) (a b : list Q)
    (ma mb d q rate : Q) :
  a <> [] -> b <> [] ->
  series_mean lib a = Fin ma -> series_mean lib b = Fin mb -> ~ (mb == 0)%Q ->
  fl lib (ma - mb) = Fin d -> fl lib (d / mb) = Fin q -> fl lib (q * 100) = Fin rate ->
  relative_difference_pct lib (group_series db a) (group_series db b) = Fin rate.
Proof.
  intros Ha Hb Hma Hmb Hz Hd Hq Hrate. unfold relative_difference_pct, mean, group_series.
  cbn [values]. destruct a as [|x a]; [contradiction|]. destruct b as [|y b]; [contradiction|].
  rewrite Hma, Hmb. cbn [np_sub]. rewrite Hd. cbn [np_div].
  destruct (Qeq_bool mb 0) eqn:E; [apply Qeq_bool_iff in E; contradiction|].
  rewrite Hq. cbn [np_mul]. exact Hrate.
Qed.

(** The call follows the t-test: its exception is passed on, its pair
    goes into the record next to what the engine computes itself. *)
Lemma verify_hypothesis_cases (lib : Library) (db : Database.DB) (a b : list Q) :
  group_of Scraper.shinjuku (Database.rows db) a ->
  group_of Scraper.setagaya (Database.rows db) b ->
  match ttest_ind lib (group_series db a) (group_series db b) with
  | Raise e => verify_hypothesis lib db = Raise e
  | Ret (t, p) =>
      exists r,
        verify_hypothesis lib db = Ret r
        /\ high_avg r = mean lib (group_series db a)
        /\ low_avg r = mean lib (group_series db b)
        /\ high_std r = std lib (group_series db a)
        /\ low_std r = std lib (group_series db b)
        /\ diff_rate r
           = relative_difference_pct lib (group_series db a) (group_series db b)
        /\ hypothesis_accepted r = np_ge (diff_rate r) (Fin 30)
        /\ t_stat r = t /\ p_value r = p
  end.
Proof.
  intros Ha Hb. unfold verify_hypothesis, Database.get_all_properties. cbv zeta.
  rewrite (group_series_column _ _ _ Ha), (group_series_column _ _ _ Hb).
  destruct (ttest_ind lib _ _) as [e|[t p]]; [reflexivity|].
  eexists. split; [reflexivity|]. cbn. repeat split.
Qed.

(** C4.  Whenever the t-test returns, the call returns a record whose rate
    is the relative difference in percent of the two group means, as
    binary64 arithmetic computes it, and whose acceptance flag is true
    exactly when that rate is at least 30.  For two groups with a finite
    mean each and a non-zero Setagaya mean, the rate is the rounded
    product by 100 of the rounded quotient of the rounded difference, and
    the flag is the inequality between rationals.  The record holds the
    statistic and the p-value of the t-test in fields of their own, and
    with any other t-test result the flag and the rate are the same. *)
Theorem acceptance_is_magnitude_threshold (lib : Library) (db : Database.DB)
    (a b : list Q) (t p : npfloat) :
  group_of Scraper.shinjuku (Database.rows db) a ->
  group_of Scraper.setagaya (Database.rows db) b ->
  ttest_ind lib (group_series db a) (group_series db b) = Ret (t, p) ->
  exists r,
    verify_hypothesis lib db = Ret r
    /\ diff_rate r = relative_difference_pct lib (group_series db a) (group_series db b)
    /\ (hypothesis_accepted r = true
        <-> np_ge (relative_difference_pct lib (group_series db a) (group_series db b))
              (Fin 30) = true)
    /\ (forall ma mb d q rate : Q,
          a <> [] -> b <> [] ->
          series_mean lib a = Fin ma -> series_mean lib b = Fin mb -> ~ (mb == 0)%Q ->
          fl lib (ma - mb) = Fin d -> fl lib (d / mb) = Fin q ->
          fl lib (q * 100) = Fin rate ->
          diff_rate r = Fin rate /\ (hypothesis_accepted r = true <-> (30 <= rate)%Q))
    /\ t_stat r = t /\ p_value r = p
    /\ forall (ttest' : Series -> Series -> exc (npfloat * npfloat)) (t' p' : npfloat),
         ttest' (group_series db a) (group_series db b) = Ret (t', p') ->
         exists r',
           verify_hypothesis (with_ttest lib ttest') db = Ret r'
           /\ t_stat r' = t' /\ p_value r' = p'
           /\ diff_rate r' = diff_rate r
           /\ hypothesis_accepted r' = hypothesis_accepted r.
Proof.
  intros Ha Hb Ht.
  pose proof (verify_hypothesis_cases lib db a b Ha Hb) as H. rewrite Ht in H.
  destruct H as (r & Hr & _ & _ & _ & _ & Hrate & Hacc & Hts & Hpv).
  exists r. split; [exact Hr|]. split; [exact Hrate|].
  split; [|split; [|split; [exact Hts|split; [exact Hpv|]]]].
  - rewrite Hacc, Hrate. reflexivity.
  - intros ma mb d q rate Hna Hnb Hma Hmb Hz Hd Hq Hrt.
    rewrite Hacc, Hrate,
      (relative_difference_pct_steps lib db a b ma mb d q rate) by assumption.
    split; [reflexivity|]. cbn [np_ge]. apply Qle_bool_iff.
  - intros ttest' t' p' Ht'.
    pose proof (verify_hypothesis_cases (with_ttest lib ttest') db a b Ha Hb) as H'.
    cbn [ttest_ind with_ttest] in H'. rewrite Ht' in H'.
    destruct H' as (r' & Hr' & _ & _ & _ & _ & Hrate' & Hacc' & Hts' & Hpv').
    exists r'. split; [exact Hr'|]. split; [exact Hts'|]. split; [exact Hpv'|].
    rewrite with_ttest_pct in Hrate'. split.
    + rewrite Hrate, Hrate'. reflexivity.
    + rewrite Hacc, Hacc', Hrate, Hrate'. reflexivity.
Qed.

(** C5 (as amended).  [verify_hypothesis] checks no group size.  It fails
    only when the t-test raises, and then with that exception; whenever
    the t-test returns, it returns a record, in which a group of fewer
    than two records has NaN as its standard deviation and the statistic
    and the p-value are what the t-test returned. *)
Theorem small_group_yields_nan (lib : Library) (db : Database.DB) (a b : list Q) :
  group_of Scraper.shinjuku (Database.rows db) a ->
  group_of Scraper.setagaya (Database.rows db) b ->
  (forall e, ttest_ind lib (group_series db a) (group_series db b) = Raise e ->
             verify_hypothesis lib db = Raise e)
  /\ (forall t p, ttest_ind lib (group_series db a) (group_series db b) = Ret (t, p) ->
        exists r,
          verify_hypothesis lib db = Ret r
          /\ ((length a < 2)%nat -> high_std r = NaN)
          /\ ((length b < 2)%nat -> low_std r = NaN)
          /\ t_stat r = t /\ p_value r = p).
Proof.
  intros Ha Hb. pose proof (verify_hypothesis_cases lib db a b Ha Hb) as H. split.
  - intros e He. rewrite He in H. exact H.
  - intros t p Ht. rewrite Ht in H.
    destruct H as (r & Hr & _ & _ & Hhs & Hls & _ & _ & Hts & Hpv).
    exists r. split; [exact Hr|]. split; [|split; [|split; assumption]].
    + intros Hlen. rewrite Hhs. apply std_small. exact Hlen.
    + intros Hlen. rewrite Hls. apply std_small. exact Hlen.
Qed.

(** A library for evaluating the engine on a concrete store: results are
    left unrounded, the mean is the sum over the count, and the standard
    deviation and the t-test answer NaN. *)
Definition plain_library : Library :=
  {| fl := Fin;
     series_mean := fun xs => Fin (Database.Qsum xs / inject_Z (Z.of_nat (length xs)));
     series_std := fun _ => NaN;
     ttest_ind := fun _ _ => Ret (NaN, NaN) |}.

Definition listing (area : pystr) (t : Q) : Scraper.ListingRecord :=
  {| Scraper.name := of_ascii "A"; Scraper.address := [];
     Scraper.rent := t; Scraper.admin_fee := 0; Scraper.total := t;
     Scraper.layout := of_ascii "1K"; Scraper.area_size := [];
     Scraper.area_name := area |}.

Definition store_of (a b : list Q) : Database.DB :=
  fst (Database.save_properties 0 DatabaseSpec.empty_db
         (map (listing Scraper.shinjuku) a ++ map (listing Scraper.setagaya) b)).

(** The two examples of the specification: group means 150000 and 100000
    give a rate of 50 and acceptance, means 120000 and 100000 give
    rejection.  On these values no operation rounds. *)
Definition store_50 : Database.DB := store_of [140000; 160000]%Q [90000; 110000]%Q.
Definition store_20 : Database.DB := store_of [110000; 130000]%Q [90000; 110000]%Q.

Lemma acceptance_is_magnitude_threshold_witness :
  exists r,
    verify_hypothesis plain_library store_50 = Ret r
    /\ diff_rate r
       = relative_difference_pct plain_library
           (group_series store_50 [140000; 160000]%Q)
           (group_series store_50 [90000; 110000]%Q)
    /\ (hypothesis_accepted r = true
        <-> np_ge (relative_difference_pct plain_library
                     (group_series store_50 [140000; 160000]%Q)
                     (group_series store_50 [90000; 110000]%Q))
              (Fin 30) = true)
    /\ (forall ma mb d q rate : Q,
          [140000; 160000]%Q <> [] -> [90000; 110000]%Q <> [] ->
          series_mean plain_library [140000; 160000]%Q = Fin ma ->
          series_mean plain_library [90000; 110000]%Q = Fin mb -> ~ (mb == 0)%Q ->
          fl plain_library (ma - mb) = Fin d -> fl plain_library (d / mb) = Fin q ->
          fl plain_library (q * 100) = Fin rate ->
          diff_rate r = Fin rate /\ (hypothesis_accepted r = true <-> (30 <= rate)%Q))
    /\ t_stat r = NaN /\ p_value r = NaN
    /\ forall (ttest' : Series -> Series -> exc (npfloat * npfloat)) (t' p' : npfloat),
         ttest' (group_series store_50 [140000; 160000]%Q)
                (group_series store_50 [90000; 110000]%Q) = Ret (t', p') ->
         exists r',
           verify_hypothesis (with_ttest plain_library ttest') store_50 = Ret r'
           /\ t_stat r' = t' /\ p_value r' = p'
           /\ diff_rate r' = diff_rate r
           /\ hypothesis_accepted r' = hypothesis_accepted r.
Proof.
  apply (acceptance_is_magnitude_threshold plain_library store_50
           [140000; 160000]%Q [90000; 110000]%Q NaN NaN).
  - exact (group_of_totals Scraper.shinjuku (Database.rows store_50)).
  - exact (group_of_totals Scraper.setagaya (Database.rows store_50)).
  - reflexivity.
Defined.

Example accepted_at_50_percent
    (ttest : Series -> Series -> exc (npfloat * npfloat)) (t p : npfloat) :
  ttest (group_series store_50 [140000; 160000]%Q)
        (group_series store_50 [90000; 110000]%Q) = Ret (t, p) ->
  exists r,
    verify_hypothesis (with_ttest plain_library ttest) store_50 = Ret r
    /\ np_ge (diff_rate r) (Fin 50) = true /\ np_ge (Fin 50) (diff_rate r) = true
    /\ hypothesis_accepted r = true.
Proof.
  intros Ht.
  pose proof (verify_hypothesis_cases (with_ttest plain_library ttest) store_50 _ _
                (group_of_totals Scraper.shinjuku (Database.rows store_50))
                (group_of_totals Scraper.setagaya (Database.rows store_50))) as H.
  cbn [ttest_ind with_ttest] in H.
  change (totals_of Scraper.shinjuku (Database.rows store_50))
    with [140000; 160000]%Q in H.
  change (totals_of Scraper.setagaya (Database.rows store_50))
    with [90000; 110000]%Q in H.
  rewrite Ht in H. destruct H as (r & Hr & _ & _ & _ & _ & Hrate & Hacc & _).
  exists r. rewrite Hacc, Hrate. split; [exact Hr|]. vm_compute. repeat split.
Qed.

Example rejected_at_20_percent
    (ttest : Series -> Series -> exc (npfloat * npfloat)) (t p : npfloat) :
  ttest (group_series store_20 [110000; 130000]%Q)
        (group_series store_20 [90000; 110000]%Q) = Ret (t, p) ->
  exists r,
    verify_hypothesis (with_ttest plain_library ttest) store_20 = Ret r
    /\ np_ge (diff_rate r) (Fin 20) = true /\ np_ge (Fin 20) (diff_rate r) = true
    /\ hypothesis_accepted r = false.
Proof.
  intros Ht.
  pose proof (verify_hypothesis_cases (with_ttest plain_library ttest) store_20 _ _
                (group_of_totals Scraper.shinjuku (Database.rows store_20))
                (group_of_totals Scraper.setagaya (Database.rows store_20))) as H.
  cbn [ttest_ind with_ttest] in H.
  change (totals_of Scraper.shinjuku (Database.rows store_20))
    with [110000; 130000]%Q in H.
  change (totals_of Scraper.setagaya (Database.rows store_20))
    with [90000; 110000]%Q in H.
  rewrite Ht in H. destruct H as (r & Hr & _ & _ & _ & _ & Hrate & Hacc & _).
  exists r. rewrite Hacc, Hrate. split; [exact Hr|]. vm_compute. repeat split.
Qed.

Lemma small_group_yields_nan_witness :
  (forall e,
     ttest_ind plain_library (group_series DatabaseSpec.sample_db [85000%Q])
       (group_series DatabaseSpec.sample_db []) = Raise e ->
     verify_hypothesis plain_library DatabaseSpec.sample_db = Raise e)
  /\ (forall t p,
        ttest_ind plain_library (group_series DatabaseSpec.sample_db [85000%Q])
          (group_series DatabaseSpec.sample_db []) = Ret (t, p) ->
        exists r,
          verify_hypothesis plain_library DatabaseSpec.sample_db = Ret r
          /\ ((length [85000%Q] < 2)%nat -> high_std r = NaN)
          /\ ((length (@nil Q) < 2)%nat -> low_std r = NaN)
          /\ t_stat r = t /\ p_value r = p).
Proof.
  apply (small_group_yields_nan plain_library DatabaseSpec.sample_db [85000%Q] []).
  - exact (group_of_totals Scraper.shinjuku (Database.rows DatabaseSpec.sample_db)).
  - exact (group_of_totals Scraper.setagaya (Database.rows DatabaseSpec.sample_db)).
Defined.

(** C5, as the specification words it, fails.  The store that holds the
    one Shinjuku sample has a group of one record and an empty group; on
    it, with a t-test that answers (NaN, NaN) for these two samples - as
    scipy does for a sample of fewer than two observations - the call
    raises nothing and returns a record whose standard deviations,
    statistic and p-value are NaN. *)
Lemma one_record_group_returns_nan :
  group_of Scraper.shinjuku (Database.rows DatabaseSpec.sample_db) [85000%Q]
  /\ group_of Scraper.setagaya (Database.rows DatabaseSpec.sample_db) []
  /\ ttest_ind plain_library (group_series DatabaseSpec.sample_db [85000%Q])
       (group_series DatabaseSpec.sample_db []) = Ret (NaN, NaN)
  /\ forall lib : Library,
       ttest_ind lib (group_series DatabaseSpec.sample_db [85000%Q])
         (group_series DatabaseSpec.sample_db []) = Ret (NaN, NaN) ->
       ~ raises (verify_hypothesis lib DatabaseSpec.sample_db)
       /\ exists r,
            verify_hypothesis lib DatabaseSpec.sample_db = Ret r
            /\ high_std r = NaN /\ low_std r = NaN
            /\ t_stat r = NaN /\ p_value r = NaN.
Proof.
  assert (Ha : group_of Scraper.shinjuku (Database.rows DatabaseSpec.sample_db) [85000%Q])
    by exact (group_of_totals Scraper.shinjuku (Database.rows DatabaseSpec.sample_db)).
  assert (Hb : group_of Scraper.setagaya (Database.rows DatabaseSpec.sample_db) [])
    by exact (group_of_totals Scraper.setagaya (Database.rows DatabaseSpec.sample_db)).
  split; [exact Ha|]. split; [exact Hb|]. split; [reflexivity|]. intros lib Ht.
  pose proof (verify_hypothesis_cases lib DatabaseSpec.sample_db _ _ Ha Hb) as H.
  rewrite Ht in H. destruct H as (r & Hr & _ & _ & Hh & Hl & _ & _ & Hts & Hpv).
  split.
  - intros [e He]. rewrite Hr in He. discriminate.
  - exists r. split; [exact Hr|]. rewrite Hh, Hl, Hts, Hpv. repeat split.
Qed.

End AnalyzerSpec.

(** ** More on the number parser *)

Module ExtractorFacts.
Import Scraper.

Section Absent.

Variable ud : pychar -> option N.

(** Separator and currency suffix are no decimal digits. *)
Hypothesis comma_not_decimal : ud ch_comma = None.
Hypothesis yen_not_decimal : ud ch_yen = None.

Lemma findall_num_from_cur (cur t : pystr) :
  cur <> [] -> findall_num_from ud cur t <> [].
Proof.
  revert cur. induction t as [|c t IH]; intros cur Hne; cbn [findall_num_from].
  - destruct cur; [contradiction|discriminate].
  - destruct (numch ud c).
    + apply IH. discriminate.
    + destruct cur; [contradiction|discriminate].
Qed.

Lemma findall_num_nil (t : pystr) :
  findall_num ud t = [] -> Forall (fun c => numch ud c = false) t.
Proof.
  unfold findall_num. induction t as [|c t IH]; intros H; [constructor|].
  cbn [findall_num_from] in H. destruct (numch ud c) eqn:Hc.
  - exfalso. revert H. apply findall_num_from_cur. discriminate.
  - constructor; [exact Hc|apply IH, H].
Qed.

Lemma remove_char_forall (P : pychar -> Prop) (c : pychar) (t : pystr) :
  Forall P t -> Forall P (remove_char c t).
Proof.
  intros H. unfold remove_char. apply Forall_forall. intros x Hx.
  apply list_elem_of_filter in Hx as [_ Hx].
  rewrite Forall_forall in H. apply H, Hx.
Qed.

Lemma remove_char_forall_inv (P : pychar -> Prop) (c : pychar) (t : pystr) :
  P c -> Forall P (remove_char c t) -> Forall P t.
Proof.
  intros Hc H. unfold remove_char in H. rewrite Forall_forall in H.
  apply Forall_forall. intros x Hx. destruct (decide (x = c)) as [->|Hne]; [exact Hc|].
  apply H, list_elem_of_filter. split; [exact Hne|exact Hx].
Qed.

Lemma no_class_no_number_before (t : pystr) :
  Forall (fun c => numch ud c = false) t -> ExtractorSpec.no_number_before_man ud t.
Proof.
  intros H a c b ->. rewrite Forall_app in H. destruct H as [_ H].
  inversion H; assumption.
Qed.

Lemma bind_not_none {A} (m : exc A) (f : A -> Q) :
  (v ← m; Ret (Some (f v))) <> Ret None.
Proof. destruct m; discriminate. Qed.

(** X1.  The parser signals "absent" exactly on the texts that hold no
    digit and no dot. *)
Theorem extract_number_none_iff (text : pystr) :
  _extract_number ud text = Ret None
  <-> Forall (fun c => numch ud c = false) text.
Proof.
  unfold _extract_number. cbv zeta. split.
  - destruct (if contains_man text then search_num_man ud text else None) as [g|].
    + intros H. exfalso. revert H. apply (bind_not_none _ (fun v => (v * 10000)%Q)).
    + destruct (findall_num ud _) as [|n0 ns] eqn:Hf.
      * intros _. apply findall_num_nil in Hf.
        apply (remove_char_forall_inv _ ch_comma).
        { unfold numch, is_digit. rewrite comma_not_decimal. reflexivity. }
        apply (remove_char_forall_inv _ ch_yen); [|exact Hf].
        unfold numch, is_digit. rewrite yen_not_decimal. reflexivity.
      * intros H. exfalso. revert H. apply (bind_not_none _ (fun v => v)).
  - intros H. rewrite ExtractorSpec.search_guard_none by apply no_class_no_number_before, H.
    rewrite ExtractorSpec.findall_num_none; [reflexivity|].
    apply remove_char_forall, remove_char_forall, H.
Qed.

End Absent.

Lemma extract_number_none_iff_witness :
  _extract_number basic_decimal [ch_hyphen] = Ret None
  <-> Forall (fun c => numch basic_decimal c = false) [ch_hyphen].
Proof. exact (extract_number_none_iff basic_decimal eq_refl eq_refl [ch_hyphen]). Defined.

(** X2.  Whatever the text, the parser returns no negative number: its
    outcome is "absent", a number that is at least 0, or the
    [ValueError] of [float]. *)
Theorem extract_number_outcomes (ud : pychar -> option N) (text : pystr) :
  _extract_number ud text = Ret None
  \/ (exists q, _extract_number ud text = Ret (Some q) /\ (0 <= q)%Q)
  \/ _extract_number ud text = Raise ValueError.
Proof.
  destruct (_extract_number ud text) as [e|[q|]] eqn:H.
  - right. right. revert H. unfold _extract_number, py_float. cbv zeta.
    destruct (if contains_man text then search_num_man ud text else None) as [g|].
    + destruct (split_dot g) as [ip fp]. destruct (ip ++ _); [intros [= <-]; reflexivity|].
      destruct (digits_value ud 0 _); [discriminate|intros [= <-]; reflexivity].
    + destruct (findall_num ud _) as [|n0 ns]; [discriminate|].
      destruct (split_dot n0) as [ip fp]. destruct (ip ++ _); [intros [= <-]; reflexivity|].
      destruct (digits_value ud 0 _); [discriminate|intros [= <-]; reflexivity].
  - right. left. exists q. split; [reflexivity|].
    eapply ScraperSpec.extract_number_nonneg, H.
  - left. reflexivity.
Qed.

End ExtractorFacts.

(** ** More on the Area Collector *)

Module ScraperFacts.
Import Scraper.

(** The pacing of a run: its sleeps and requests, in order. *)
Definition pacing (log : list event) : list event :=
  List.filter (fun e => match e with Sleep _ | Get _ => true | Print _ => false end) log.

(** The seconds a run sleeps. *)
Definition sleep_seconds (log : list event) : Z :=
  fold_right (fun e acc => match e with Sleep s => s + acc | _ => acc end) 0 log.

Lemma sleep_seconds_app (l1 l2 : list event) :
  sleep_seconds (l1 ++ l2) = sleep_seconds l1 + sleep_seconds l2.
Proof.
  induction l1 as [|e l1 IH]; [reflexivity|]. cbn [app sleep_seconds fold_right].
  fold (sleep_seconds (l1 ++ l2)). fold (sleep_seconds l1). rewrite IH.
  destruct e; lia.
Qed.

Section Facts.

Variable ud : pychar -> option N.
Variable World : Type.
Variable requests_get : World -> pystr -> exc Response * World.

(** *** Rooms *)

Definition room_step (name address area : pystr) (props : list ListingRecord) (room : Room)
  : list ListingRecord :=
  match extract_room ud name address area room with
  | Ret (Some r) => props ++ [r]
  | Ret None => props
  | Raise _ => props
  end.

Lemma rooms_loop_fold (name address area : pystr) (rs : list Room) (props : list ListingRecord) :
  rooms_loop ud name address area rs props = fold_left (room_step name address area) rs props.
Proof. reflexivity. Qed.

Lemma rooms_loop_acc (name address area : pystr) (rs : list Room) (props : list ListingRecord) :
  rooms_loop ud name address area rs props = props ++ rooms_loop ud name address area rs [].
Proof.
  rewrite !rooms_loop_fold. revert props.
  induction rs as [|room rs IH]; intros props; cbn [fold_left].
  - rewrite app_nil_r. reflexivity.
  - rewrite IH, (IH (room_step _ _ _ [] room)). unfold room_step.
    destruct (extract_room ud name address area room) as [e|[r|]];
      rewrite ?app_nil_l, ?app_assoc; reflexivity.
Qed.

(** A room that gives no record: a [continue], or an exception caught
    by the handler of its [try]. *)
Definition gives_no_record (name address area : pystr) (room : Room) : Prop :=
  forall r, extract_room ud name address area room <> Ret (Some r).

Lemma room_step_skip (name address area : pystr) (room : Room) (props : list ListingRecord) :
  gives_no_record name address area room -> room_step name address area props room = props.
Proof.
  intros Hno. unfold room_step.
  destruct (extract_room ud name address area room) as [e|[r|]] eqn:Hr; try reflexivity.
  exfalso. exact (Hno r Hr).
Qed.

(** X3.  A room that gives no record, by a [continue] or by an
    exception, changes nothing for the rooms around it: the list is the
    one collected without that room.  The records collected before the
    loop stay in front, in their order. *)
Theorem rooms_loop_skips (name address area : pystr) (rs1 rs2 : list Room) (room : Room)
    (props : list ListingRecord) :
  gives_no_record name address area room ->
  rooms_loop ud name address area (rs1 ++ room :: rs2) props
  = props ++ rooms_loop ud name address area (rs1 ++ rs2) [].
Proof.
  intros Hno. rewrite <- (rooms_loop_acc _ _ _ (rs1 ++ rs2) props).
  rewrite !rooms_loop_fold, !fold_left_app. cbn [fold_left].
  rewrite room_step_skip by exact Hno. reflexivity.
Qed.

(** *** Pages *)

Lemma cassettes_acc (area : pystr) (cs : list Cassette) (props : list ListingRecord) :
  fold_left (cassette_step ud area) cs props
  = props ++ fold_left (cassette_step ud area) cs [].
Proof.
  revert props. induction cs as [|c cs IH]; intros props; cbn [fold_left].
  - rewrite app_nil_r. reflexivity.
  - rewrite IH, (IH (cassette_step ud area [] c)), app_assoc. f_equal.
    unfold cassette_step. destruct (title_text c); [|rewrite app_nil_r; reflexivity].
    apply rooms_loop_acc.
Qed.

(** The records a response adds, whatever was collected before. *)
Definition page_records (area : pystr) (answer : exc Response) : list ListingRecord :=
  match answer with
  | Raise _ => []
  | Ret response =>
      if negb (status_code response =? 200) then []
      else fold_left (cassette_step ud area) (cassettos response) []
  end.

Lemma page_step_state (sc area : pystr) (pages : Z) (st : loop_state World) (page : Z) :
  st_properties _ (page_step ud World requests_get sc area pages st page)
  = st_properties _ st
    ++ page_records area (fst (requests_get (st_world _ st) (build_url sc page)))
  /\ st_world _ (page_step ud World requests_get sc area pages st page)
     = snd (requests_get (st_world _ st) (build_url sc page)).
Proof.
  unfold page_step, page_records.
  destruct (requests_get _ _) as [[e|resp] w']; cbn [fst snd st_properties st_world].
  - rewrite app_nil_r. split; reflexivity.
  - destruct (negb _); cbn [st_properties st_world].
    + rewrite app_nil_r. split; reflexivity.
    + destruct (cassettos resp) as [|c cs] eqn:Hcs; cbn [st_properties st_world].
      * cbn. rewrite app_nil_r. split; reflexivity.
      * split; [apply cassettes_acc|reflexivity].
Qed.

Lemma pacing_page_step (sc area : pystr) (pages : Z) (st : loop_state World) (page : Z) :
  pacing (st_log _ (page_step ud World requests_get sc area pages st page))
  = pacing (st_log _ st) ++ [Sleep 3; Get (build_url sc page)].
Proof.
  unfold page_step, pacing.
  destruct (requests_get _ _) as [[e|resp] w'].
  - cbn [st_log]. rewrite !List.filter_app. cbn. rewrite app_nil_r. reflexivity.
  - destruct (negb _).
    + cbn [st_log]. rewrite !List.filter_app. cbn. rewrite app_nil_r. reflexivity.
    + destruct (cassettos resp); cbn [st_log]; rewrite !List.filter_app; cbn;
        rewrite app_nil_r; reflexivity.
Qed.

Lemma pacing_pages (sc area : pystr) (pages : Z) (ps : list Z) (st : loop_state World) :
  pacing (st_log _ (fold_left (page_step ud World requests_get sc area pages) ps st))
  = pacing (st_log _ st) ++ flat_map (fun p => [Sleep 3; Get (build_url sc p)]) ps.
Proof.
  revert st. induction ps as [|p ps IH]; intros st; cbn [fold_left flat_map].
  - rewrite app_nil_r. reflexivity.
  - rewrite IH, pacing_page_step, <- app_assoc. reflexivity.
Qed.

(** X4.  For a supported area, the sleeps and requests of a run are,
    page after page, one sleep of 3 seconds and then the request of that
    page: every request is preceded by the sleep, whatever the earlier
    pages answered, and there are as many requests as pages. *)
Theorem scrape_area_pacing (area_code area_name sc : pystr) (pages : Z) (w : World) :
  AREA_CODES !! area_name = Some sc ->
  pacing (st_log _ (scrape_area ud World requests_get area_code area_name pages w))
  = flat_map (fun p => [Sleep 3; Get (build_url sc p)]) (page_range pages)
  /\ length (ScraperSpec.requested
               (st_log _ (scrape_area ud World requests_get area_code area_name pages w)))
     = Z.to_nat pages.
Proof.
  intros Hsc. unfold scrape_area. rewrite Hsc.
  destruct (ScraperSpec.AREA_CODES_supported _ _ Hsc) as [[_ ->]|[_ ->]];
    cbv match beta; cbn [of_ascii String.list_ascii_of_string map];
    rewrite pacing_pages, ScraperSpec.requested_pages;
    (split; [reflexivity|]);
    unfold page_range; rewrite length_app, !length_map, length_seq; reflexivity.
Qed.

Lemma sleep_seconds_pages (sc area : pystr) (pages : Z) (ps : list Z) (st : loop_state World) :
  sleep_seconds (st_log _ (fold_left (page_step ud World requests_get sc area pages) ps st))
  = sleep_seconds (st_log _ st) + 3 * Z.of_nat (length ps).
Proof.
  revert st. induction ps as [|p ps IH]; intros st; cbn [fold_left length]; [lia|].
  rewrite IH. unfold page_step.
  destruct (requests_get _ _) as [[e|resp] w']; [|destruct (negb _); [|destruct (cassettos resp)]];
    cbn [st_log]; rewrite !sleep_seconds_app; cbn; lia.
Qed.

Lemma sleep_seconds_scrape_area (area_code area_name : pystr) (pages : Z) (w : World) :
  sleep_seconds (st_log _ (scrape_area ud World requests_get area_code area_name pages w))
  = if bool_decide (area_name = shinjuku \/ area_name = setagaya)
    then 3 * Z.of_nat (Z.to_nat pages) else 0.
Proof.
  unfold scrape_area. destruct (AREA_CODES !! area_name) as [sc|] eqn:Hsc.
  - destruct (ScraperSpec.AREA_CODES_supported _ _ Hsc) as [[-> ->]|[-> ->]];
      cbv match beta; cbn [of_ascii String.list_ascii_of_string map];
      rewrite sleep_seconds_pages; unfold page_range; rewrite !length_map, length_seq;
      (rewrite bool_decide_eq_true_2 by auto); reflexivity.
  - rewrite bool_decide_eq_false_2; [reflexivity|].
    intros [->| ->]; vm_compute in Hsc; discriminate.
Qed.

Lemma requested_scrape_area (area_code area_name : pystr) (pages : Z) (w : World) :
  ScraperSpec.requested
    (st_log _ (scrape_area ud World requests_get area_code area_name pages w))
  = match AREA_CODES !! area_name with
    | Some sc => map (build_url sc) (page_range pages)
    | None => []
    end.
Proof.
  unfold scrape_area. destruct (AREA_CODES !! area_name) as [sc|] eqn:Hsc; [|reflexivity].
  destruct (ScraperSpec.AREA_CODES_supported _ _ Hsc) as [[_ ->]|[_ ->]];
    cbv match beta; cbn [of_ascii String.list_ascii_of_string map];
    rewrite ScraperSpec.requested_pages; reflexivity.
Qed.

(** *** Records *)

Lemma extract_room_fields (name address area : pystr) (room : Room) (r : ListingRecord) :
  extract_room ud name address area room = Ret (Some r) ->
  Scraper.name r = name /\ Scraper.address r = address /\ Scraper.area_name r = area
  /\ layout r = default_text (madori_text room)
  /\ area_size r = default_text (menseki_text room)
  /\ exists t, rent_text room = Some t /\ _extract_number ud t = Ret (Some (rent r)).
Proof.
  unfold extract_room. destruct (rent_text room) as [pt|]; [|discriminate].
  destruct (_extract_number ud pt) as [e|[price|]] eqn:Hp; cbn [mbind exc_bind]; try discriminate.
  destruct (negb _); [discriminate|].
  destruct (match admin_text room with
            | Some admin_text =>
                if decide (admin_text = [ch_hyphen]) then Ret 0%Q
                else r0 ← _extract_number ud admin_text; Ret (or_zero r0)
            | None => Ret 0%Q
            end) as [e|fee]; cbn [mbind exc_bind]; [discriminate|].
  intros [= <-]. cbn. repeat split. exists pt. split; [reflexivity|exact Hp].
Qed.

Section Invariant.

Variable P : ListingRecord -> Prop.
Variable area : pystr.
Hypothesis extract_room_P :
  forall name address room r,
    extract_room ud name address area room = Ret (Some r) -> P r.

Lemma rooms_loop_forall (name address : pystr) (rs : list Room) (props : list ListingRecord) :
  Forall P props -> Forall P (rooms_loop ud name address area rs props).
Proof.
  rewrite rooms_loop_fold. revert props.
  induction rs as [|room rs IH]; intros props Hp; [exact Hp|].
  cbn [fold_left]. apply IH. unfold room_step.
  destruct (extract_room ud name address area room) as [e|[r|]] eqn:Hr; try exact Hp.
  apply Forall_app. split; [exact Hp|]. constructor; [|constructor].
  eapply extract_room_P, Hr.
Qed.

Lemma cassettes_forall (cs : list Cassette) (props : list ListingRecord) :
  Forall P props -> Forall P (fold_left (cassette_step ud area) cs props).
Proof.
  revert props. induction cs as [|c cs IH]; intros props Hp; [exact Hp|].
  cbn [fold_left]. apply IH. unfold cassette_step.
  destruct (title_text c); [apply rooms_loop_forall, Hp|exact Hp].
Qed.

Lemma page_records_forall (answer : exc Response) : Forall P (page_records area answer).
Proof.
  unfold page_records. destruct answer as [e|resp]; [constructor|].
  destruct (negb _); [constructor|]. apply cassettes_forall. constructor.
Qed.

Lemma pages_forall (sc : pystr) (pages : Z) (ps : list Z) (st : loop_state World) :
  Forall P (st_properties _ st) ->
  Forall P (st_properties _ (fold_left (page_step ud World requests_get sc area pages) ps st)).
Proof.
  revert st. induction ps as [|p ps IH]; intros st Hp; [exact Hp|].
  cbn [fold_left]. apply IH.
  rewrite (proj1 (page_step_state sc area pages st p)).
  apply Forall_app. split; [exact Hp|apply page_records_forall].
Qed.

Lemma scrape_area_forall (area_code : pystr) (pages : Z) (w : World) :
  Forall P (st_properties _ (scrape_area ud World requests_get area_code area pages w)).
Proof.
  unfold scrape_area. destruct (AREA_CODES !! area) as [[|c code]|].
  - constructor.
  - apply pages_forall. constructor.
  - constructor.
Qed.

End Invariant.

Lemma scrape_area_names (area_code area_name : pystr) (pages : Z) (w : World) :
  Forall (fun r => Scraper.area_name r = area_name)
    (st_properties _ (scrape_area ud World requests_get area_code area_name pages w)).
Proof.
  apply scrape_area_forall. intros name address room r Hr.
  apply (extract_room_fields _ _ _ _ _ Hr).
Qed.

Lemma scrape_area_some_supported (area_code area_name : pystr) (pages : Z) (w : World) :
  st_properties _ (scrape_area ud World requests_get area_code area_name pages w) <> [] ->
  area_name = shinjuku \/ area_name = setagaya.
Proof.
  unfold scrape_area. destruct (AREA_CODES !! area_name) as [sc|] eqn:Hsc.
  - intros _. destruct (ScraperSpec.AREA_CODES_supported _ _ Hsc) as [[-> _]|[-> _]]; auto.
  - intros H. contradiction.
Qed.

(** X5.  Every record of [scrape_area] carries the area name the call
    was given, and a call that returns any record was given one of the
    two supported names. *)
Theorem scrape_area_area_name (area_code area_name : pystr) (pages : Z) (w : World) :
  Forall (fun r => Scraper.area_name r = area_name)
    (st_properties _ (scrape_area ud World requests_get area_code area_name pages w))
  /\ (st_properties _ (scrape_area ud World requests_get area_code area_name pages w) <> [] ->
      area_name = shinjuku \/ area_name = setagaya).
Proof. split; [apply scrape_area_names|apply scrape_area_some_supported]. Qed.

(** *** More pages *)

Lemma pages_state_indep (sc area : pystr) (pages1 pages2 : Z) (ps : list Z)
    (st1 st2 : loop_state World) :
  st_properties _ st1 = st_properties _ st2 -> st_world _ st1 = st_world _ st2 ->
  st_properties _ (fold_left (page_step ud World requests_get sc area pages1) ps st1)
  = st_properties _ (fold_left (page_step ud World requests_get sc area pages2) ps st2)
  /\ st_world _ (fold_left (page_step ud World requests_get sc area pages1) ps st1)
     = st_world _ (fold_left (page_step ud World requests_get sc area pages2) ps st2).
Proof.
  revert st1 st2. induction ps as [|p ps IH]; intros st1 st2 Hp Hw; [split; assumption|].
  cbn [fold_left]. apply IH.
  - rewrite (proj1 (page_step_state sc area pages1 st1 p)),
            (proj1 (page_step_state sc area pages2 st2 p)), Hp, Hw. reflexivity.
  - rewrite (proj2 (page_step_state sc area pages1 st1 p)),
            (proj2 (page_step_state sc area pages2 st2 p)), Hw. reflexivity.
Qed.

Lemma pages_extend (sc area : pystr) (pages : Z) (ps : list Z) (st : loop_state World) :
  st_properties _ st
  `prefix_of` st_properties _ (fold_left (page_step ud World requests_get sc area pages) ps st).
Proof.
  revert st. induction ps as [|p ps IH]; intros st; cbn [fold_left]; [reflexivity|].
  etransitivity; [|apply IH].
  rewrite (proj1 (page_step_state sc area pages st p)). apply prefix_app_r. reflexivity.
Qed.

Lemma page_range_split (pages pages' : Z) :
  pages <= pages' -> exists more, page_range pages' = page_range pages ++ more.
Proof.
  intros Hle. unfold page_range.
  replace (Z.to_nat pages') with (Z.to_nat pages + (Z.to_nat pages' - Z.to_nat pages))%nat by lia.
  rewrite seq_app, map_app. eexists. reflexivity.
Qed.

(** X6.  Asking for more pages keeps what fewer pages gave: the records
    of a run over [pages] pages are the first records, in the same
    order, of the run over [pages'] pages from the same world, when
    [pages <= pages']. *)
Theorem scrape_area_more_pages (area_code area_name : pystr) (pages pages' : Z) (w : World) :
  pages <= pages' ->
  st_properties _ (scrape_area ud World requests_get area_code area_name pages w)
  `prefix_of` st_properties _ (scrape_area ud World requests_get area_code area_name pages' w).
Proof.
  intros Hle. unfold scrape_area.
  destruct (AREA_CODES !! area_name) as [[|c sc]|]; try reflexivity.
  destruct (page_range_split pages pages' Hle) as [more ->].
  rewrite fold_left_app.
  set (st0 := {| st_properties := []; st_world := w;
                 st_log := [Print (MsgStart area_name)] |}).
  destruct (pages_state_indep (c :: sc) area_name pages pages' (page_range pages) st0 st0
              eq_refl eq_refl) as [Hp _].
  rewrite Hp. apply pages_extend.
Qed.

End Facts.

Lemma rooms_loop_skips_witness :
  rooms_loop basic_decimal (of_ascii "A") [] shinjuku
    ([ScraperSpec.room_a] ++ ScraperSpec.room_c :: [ScraperSpec.room_a]) []
  = [] ++ rooms_loop basic_decimal (of_ascii "A") [] shinjuku
            ([ScraperSpec.room_a] ++ [ScraperSpec.room_a]) [].
Proof.
  apply (rooms_loop_skips basic_decimal (of_ascii "A") [] shinjuku
           [ScraperSpec.room_a] [ScraperSpec.room_a] ScraperSpec.room_c []).
  intros r. vm_compute. discriminate.
Defined.

Lemma scrape_area_pacing_witness :
  pacing (st_log _ (scrape_area basic_decimal nat ScraperSpec.one_page
                      (of_ascii "13") shinjuku 2 0%nat))
  = flat_map (fun p => [Sleep 3; Get (build_url (of_ascii "13104") p)]) (page_range 2)
  /\ length (ScraperSpec.requested
               (st_log _ (scrape_area basic_decimal nat ScraperSpec.one_page
                            (of_ascii "13") shinjuku 2 0%nat)))
     = Z.to_nat 2.
Proof.
  apply (scrape_area_pacing basic_decimal nat ScraperSpec.one_page
           (of_ascii "13") shinjuku (of_ascii "13104") 2 0%nat).
  reflexivity.
Defined.

Lemma scrape_area_more_pages_witness :
  st_properties _ (scrape_area basic_decimal nat ScraperSpec.one_page
                     (of_ascii "13") shinjuku 1 0%nat)
  `prefix_of` st_properties _ (scrape_area basic_decimal nat ScraperSpec.one_page
                                 (of_ascii "13") shinjuku 3 0%nat).
Proof.
  apply (scrape_area_more_pages basic_decimal nat ScraperSpec.one_page
           (of_ascii "13") shinjuku 1 3 0%nat).
  lia.
Defined.

End ScraperFacts.

(** ** The Multi-Area Collector *)

Module CollectorSpec.
Import Collector.

(** The area is one of the two of [AREA_CODES]. *)
Definition supported (a : Area) : bool :=
  bool_decide (name a = Scraper.shinjuku \/ name a = Scraper.setagaya).

(** How often [k] occurs in a list. *)
Definition occurrences (k : pystr) (l : list pystr) : nat :=
  length (List.filter (fun x => bool_decide (x = k)) l).

(** The count a counter holds for [k]; 0 without an entry. *)
Fixpoint tally (c : list (pystr * nat)) (k : pystr) : nat :=
  match c with
  | [] => 0%nat
  | (k', n) :: c' => if decide (k = k') then n else tally c' k
  end.

(** The per-area lines of the breakdown a run printed. *)
Definition breakdown (log : list event) : list (pystr * nat) :=
  omap (fun e => match e with Print (MsgBreakdown a c) => Some (a, c) | _ => None end) log.

(** The seconds slept and the URLs requested during a run. *)
Definition area_events (log : list event) : list Scraper.event :=
  omap (fun e => match e with AreaEvent e' => Some e' | _ => None end) log.

Definition slept (log : list event) : Z := ScraperFacts.sleep_seconds (area_events log).

(** *** The counter *)

Lemma tally_counter_add (k k' : pystr) (c : list (pystr * nat)) :
  tally (counter_add k c) k' = if decide (k' = k) then S (tally c k) else tally c k'.
Proof.
  induction c as [|[k0 n] c IH]; cbn [counter_add tally].
  - reflexivity.
  - destruct (decide (k = k0)) as [->|Hk]; cbn [tally].
    + repeat case_decide; congruence.
    + rewrite IH. repeat case_decide; congruence.
Qed.

Lemma keys_counter_add (k : pystr) (c : list (pystr * nat)) :
  map fst (counter_add k c) = map fst c ++ (if decide (k ∈ map fst c) then [] else [k]).
Proof.
  induction c as [|[k0 n] c IH]; cbn [counter_add map fst app].
  - rewrite decide_False by apply not_elem_of_nil. reflexivity.
  - destruct (decide (k = k0)) as [->|Hk]; cbn [map fst].
    + rewrite decide_True by apply list_elem_of_here. rewrite app_nil_r. reflexivity.
    + rewrite IH. destruct (decide (k ∈ map fst c)) as [Hin|Hin].
      * rewrite decide_True by (apply list_elem_of_further, Hin). reflexivity.
      * rewrite decide_False; [reflexivity|].
        intros H. apply elem_of_cons in H as [H|H]; [congruence|contradiction].
Qed.

Lemma NoDup_counter_add (k : pystr) (c : list (pystr * nat)) :
  NoDup (map fst c) -> NoDup (map fst (counter_add k c)).
Proof.
  intros H. rewrite keys_counter_add. destruct (decide (k ∈ map fst c)) as [Hin|Hin].
  - rewrite app_nil_r. exact H.
  - apply NoDup_app. split; [exact H|]. split; [|apply NoDup_singleton].
    intros x Hx Hx'. apply list_elem_of_singleton in Hx'. subst. contradiction.
Qed.

Lemma sum_counter_add (k : pystr) (c : list (pystr * nat)) :
  sum_list (map snd (counter_add k c)) = S (sum_list (map snd c)).
Proof.
  induction c as [|[k0 n] c IH]; cbn [counter_add]; [reflexivity|].
  destruct (decide (k = k0)); cbn [map snd sum_list_with] in *; unfold id in *; lia.
Qed.

Lemma occurrences_snoc (k k' : pystr) (l : list pystr) :
  occurrences k' (l ++ [k]) = (occurrences k' l + if decide (k' = k) then 1 else 0)%nat.
Proof.
  unfold occurrences. rewrite List.filter_app, length_app. cbn [List.filter].
  destruct (decide (k' = k)) as [->|Hne].
  - rewrite bool_decide_eq_true_2 by reflexivity. reflexivity.
  - rewrite bool_decide_eq_false_2 by congruence. reflexivity.
Qed.

(** What the counter holds after a list was counted into it. *)
Definition counts (c : list (pystr * nat)) (l : list pystr) : Prop :=
  NoDup (map fst c)
  /\ (forall k, tally c k = occurrences k l)
  /\ sum_list (map snd c) = length l.

Lemma counts_fold (l done : list pystr) (c : list (pystr * nat)) :
  counts c done -> counts (fold_left (fun c k => counter_add k c) l c) (done ++ l).
Proof.
  revert done c. induction l as [|k l IH]; intros done c Hc; cbn [fold_left].
  - rewrite app_nil_r. exact Hc.
  - replace (done ++ k :: l) with ((done ++ [k]) ++ l) by (rewrite <- app_assoc; reflexivity).
    apply IH. destruct Hc as (Hnd & Htally & Hsum). split; [|split].
    + apply NoDup_counter_add, Hnd.
    + intros k'. rewrite tally_counter_add, occurrences_snoc, <- !Htally.
      destruct (decide (k' = k)) as [->|]; lia.
    + rewrite sum_counter_add, Hsum, length_app. cbn. lia.
Qed.

Lemma Counter_counts (l : list pystr) : counts (Counter l) l.
Proof.
  unfold Counter. apply (counts_fold l [] []). split; [constructor|]. split; reflexivity.
Qed.

Lemma tally_entry (c : list (pystr * nat)) (k : pystr) (n : nat) :
  NoDup (map fst c) -> (k, n) ∈ c -> tally c k = n.
Proof.
  induction c as [|[k0 n0] c IH]; intros Hnd Hin; [inversion Hin|].
  cbn [tally map fst] in *. apply NoDup_cons in Hnd as [Hk0 Hnd].
  apply elem_of_cons in Hin as [[= <- <-]|Hin].
  - rewrite decide_True by reflexivity. reflexivity.
  - destruct (decide (k = k0)) as [->|]; [|apply IH; assumption].
    exfalso. apply Hk0. apply list_elem_of_fmap. exists (k0, n). split; [reflexivity|exact Hin].
Qed.

Lemma counter_add_positive (k : pystr) (c : list (pystr * nat)) :
  Forall (fun kn => (0 < snd kn)%nat) c ->
  Forall (fun kn => (0 < snd kn)%nat) (counter_add k c).
Proof.
  induction 1 as [|[k0 n] c Hn Hc IH]; cbn [counter_add].
  - repeat constructor.
  - destruct (decide (k = k0)); constructor; cbn [snd] in *; try assumption; lia.
Qed.

Lemma fold_counter_positive (l : list pystr) (c : list (pystr * nat)) :
  Forall (fun kn => (0 < snd kn)%nat) c ->
  Forall (fun kn => (0 < snd kn)%nat) (fold_left (fun c k => counter_add k c) l c).
Proof.
  revert c. induction l as [|k l IH]; intros c Hc; cbn [fold_left]; [exact Hc|].
  apply IH, counter_add_positive, Hc.
Qed.

Lemma Counter_positive (l : list pystr) : Forall (fun kn => (0 < snd kn)%nat) (Counter l).
Proof. apply fold_counter_positive. constructor. Qed.

(** *** The loop over the areas *)

Section Collect.

Variable ud : pychar -> option N.
Variable World : Type.
Variable requests_get : World -> pystr -> exc Scraper.Response * World.

Abbreviation run_area := (Scraper.scrape_area ud World requests_get).
Abbreviation step := (area_step ud World requests_get).
Abbreviation run := (scrape_multiple_areas ud World requests_get).

Lemma area_step_state (pages : Z) (st : state World) (a : Area) :
  all_properties _ (step pages st a)
  = all_properties _ st
    ++ Scraper.st_properties _ (run_area (code a) (name a) pages (world _ st))
  /\ world _ (step pages st a)
     = Scraper.st_world _ (run_area (code a) (name a) pages (world _ st))
  /\ exists m,
       log _ (step pages st a)
       = log _ st
         ++ map AreaEvent (Scraper.st_log _ (run_area (code a) (name a) pages (world _ st)))
         ++ [Print m]
       /\ (m = MsgAreaFailed (name a)
           \/ m = MsgAreaDone (name a)
                   (length (Scraper.st_properties _
                              (run_area (code a) (name a) pages (world _ st))))).
Proof.
  unfold area_step.
  destruct (Scraper.st_properties _ _) as [|r rs] eqn:Hp; cbn [all_properties world log].
  - rewrite app_nil_r. split; [reflexivity|]. split; [reflexivity|].
    eexists. rewrite <- app_assoc. split; [reflexivity|]. left. reflexivity.
  - split; [reflexivity|]. split; [reflexivity|].
    eexists. rewrite <- app_assoc. split; [reflexivity|]. right. reflexivity.
Qed.

Lemma run_state (areas : list Area) (pages : Z) (w : World) :
  all_properties _ (run areas pages w)
  = all_properties _ (fold_left (step pages) areas
                        {| all_properties := []; world := w; log := [] |})
  /\ world _ (run areas pages w)
     = world _ (fold_left (step pages) areas
                  {| all_properties := []; world := w; log := [] |}).
Proof.
  unfold scrape_multiple_areas. cbv zeta. cbn [all_properties world].
  set (header := [Print MsgRule; _; _; _; _; _]).
  generalize header. generalize (@nil event). generalize (@nil Scraper.ListingRecord). generalize w.
  induction areas as [|a areas IH]; intros w0 props l1 l2; cbn [fold_left]; [split; reflexivity|].
  pose proof (area_step_state pages {| all_properties := props; world := w0; log := l1 |} a)
    as (Hp1 & Hw1 & _).
  pose proof (area_step_state pages {| all_properties := props; world := w0; log := l2 |} a)
    as (Hp2 & Hw2 & _).
  cbn [all_properties world] in *.
  destruct (step pages {| all_properties := props; world := w0; log := l1 |} a) as [p1 w1 g1].
  destruct (step pages {| all_properties := props; world := w0; log := l2 |} a) as [p2 w2 g2].
  cbn [all_properties world] in *. subst. destruct (IH
    (Scraper.st_world _ (run_area (code a) (name a) pages w0))
    (props ++ Scraper.st_properties _ (run_area (code a) (name a) pages w0)) g2 g1) as [H1 H2].
  split; congruence.
Qed.

(** What holds of a record of the Multi-Area Collector. *)
Definition collected_ok (areas : list Area) (r : Scraper.ListingRecord) : Prop :=
  ScraperSpec.record_ok r
  /\ (Scraper.area_name r = Scraper.shinjuku \/ Scraper.area_name r = Scraper.setagaya)
  /\ exists a, a ∈ areas /\ name a = Scraper.area_name r.

Lemma run_area_collected_ok (a : Area) (pages : Z) (w : World) :
  Forall (collected_ok [a]) (Scraper.st_properties _ (run_area (code a) (name a) pages w)).
Proof.
  pose proof (ScraperSpec.scrape_area_ok ud World requests_get (code a) (name a) pages w) as Hok.
  pose proof (ScraperFacts.scrape_area_names ud World requests_get (code a) (name a) pages w)
    as Hnm.
  pose proof (ScraperFacts.scrape_area_some_supported ud World requests_get
                (code a) (name a) pages w) as Hsup.
  destruct (Scraper.st_properties _ _) as [|r0 rs]; [constructor|].
  specialize (Hsup ltac:(discriminate)).
  rewrite Forall_forall in *. intros r Hr. specialize (Hok r Hr). specialize (Hnm r Hr).
  split; [exact Hok|]. split; [rewrite Hnm; exact Hsup|].
  exists a. split; [apply list_elem_of_here|symmetry; exact Hnm].
Qed.

Lemma collected_ok_mono (areas areas' : list Area) (r : Scraper.ListingRecord) :
  areas ⊆ areas' -> collected_ok areas r -> collected_ok areas' r.
Proof.
  intros Hsub (Hok & Hsup & a & Ha & Hn). split; [exact Hok|]. split; [exact Hsup|].
  exists a. split; [apply Hsub, Ha|exact Hn].
Qed.

Lemma fold_collected_ok (areas done : list Area) (pages : Z) (st : state World) :
  Forall (collected_ok done) (all_properties _ st) ->
  Forall (collected_ok (done ++ areas)) (all_properties _ (fold_left (step pages) areas st)).
Proof.
  revert done st. induction areas as [|a areas IH]; intros done st Hst; cbn [fold_left].
  - rewrite app_nil_r. exact Hst.
  - replace (done ++ a :: areas) with ((done ++ [a]) ++ areas)
      by (rewrite <- app_assoc; reflexivity).
    apply IH. rewrite (proj1 (area_step_state pages st a)). apply Forall_app. split.
    + eapply Forall_impl; [exact Hst|]. intros r. apply collected_ok_mono.
      intros x Hx. apply elem_of_app. left. exact Hx.
    + eapply Forall_impl; [apply run_area_collected_ok|]. intros r. apply collected_ok_mono.
      intros x Hx. apply elem_of_app. right. exact Hx.
Qed.

Lemma collected_records (areas : list Area) (pages : Z) (w : World) :
  Forall (collected_ok areas) (all_properties _ (run areas pages w)).
Proof.
  rewrite (proj1 (run_state areas pages w)).
  apply (fold_collected_ok areas [] pages). constructor.
Qed.

(** X7.  Every record [scrape_multiple_areas] returns satisfies
    [total == rent + admin_fee], [rent >= 10000] and [admin_fee >= 0],
    and its area name is one of the two supported names and the name of
    one of the areas asked for. *)
Theorem scrape_multiple_areas_records (areas : list Area) (pages : Z) (w : World) :
  Forall (collected_ok areas)
    (all_properties _ (scrape_multiple_areas ud World requests_get areas pages w)).
Proof. apply collected_records. Qed.

(** *** The breakdown *)

Lemma breakdown_area_events (l : list Scraper.event) : breakdown (map AreaEvent l) = [].
Proof. induction l as [|e l IH]; [reflexivity|exact IH]. Qed.

Lemma breakdown_fold (areas : list Area) (pages : Z) (st : state World) :
  breakdown (log _ (fold_left (step pages) areas st)) = breakdown (log _ st).
Proof.
  revert st. induction areas as [|a areas IH]; intros st; cbn [fold_left]; [reflexivity|].
  rewrite IH. destruct (area_step_state pages st a) as (_ & _ & m & -> & Hm).
  unfold breakdown. rewrite !omap_app. fold (breakdown (map AreaEvent
    (Scraper.st_log _ (run_area (code a) (name a) pages (world _ st))))).
  rewrite breakdown_area_events. destruct Hm as [-> | ->]; cbn; rewrite app_nil_r; reflexivity.
Qed.

Lemma breakdown_entries (c : list (pystr * nat)) :
  breakdown (map (fun ac => Print (MsgBreakdown (fst ac) (snd ac))) c) = c.
Proof.
  induction c as [|[a n] c IH]; [reflexivity|]. unfold breakdown in *. cbn. rewrite IH.
  reflexivity.
Qed.

Lemma run_breakdown (areas : list Area) (pages : Z) (w : World) :
  breakdown (log _ (run areas pages w))
  = Counter (map Scraper.area_name (all_properties _ (run areas pages w))).
Proof.
  unfold scrape_multiple_areas. cbv zeta. cbn [log all_properties].
  unfold breakdown at 1. rewrite !omap_app.
  fold (breakdown (log _ (fold_left (step pages) areas
         {| all_properties := []; world := w;
            log := [Print MsgRule; Print MsgTitle; Print MsgRule;
                    Print (MsgTarget (length areas) pages);
                    Print (MsgEstimate (Z.of_nat (length areas) * pages * 3));
                    Print MsgRule] |}))).
  rewrite breakdown_fold.
  match goal with |- context [omap ?f (map ?g ?c)] =>
    change (omap f (map g c)) with (breakdown (map g c)) end.
  rewrite breakdown_entries. cbn. rewrite app_nil_r. reflexivity.
Qed.

(** X8.  The breakdown printed at the end of a run lists every area
    name once, in no entry a count of 0: each count is the number of
    returned records of that area, and the counts add up to the number
    of records returned. *)
Theorem scrape_multiple_areas_breakdown (areas : list Area) (pages : Z) (w : World) :
  NoDup (map fst (breakdown (log _ (scrape_multiple_areas ud World requests_get areas pages w))))
  /\ (forall a c,
         (a, c) ∈ breakdown (log _ (scrape_multiple_areas ud World requests_get areas pages w)) ->
         (0 < c)%nat
         /\ c = occurrences a
                  (map Scraper.area_name
                     (all_properties _ (scrape_multiple_areas ud World requests_get areas pages w))))
  /\ sum_list (map snd (breakdown (log _ (scrape_multiple_areas ud World requests_get
                                             areas pages w))))
     = length (all_properties _ (scrape_multiple_areas ud World requests_get areas pages w)).
Proof.
  rewrite run_breakdown.
  destruct (Counter_counts (map Scraper.area_name (all_properties _ (run areas pages w))))
    as (Hnd & Htally & Hsum).
  split; [exact Hnd|]. split.
  - intros a c Hin. split.
    + pose proof (Counter_positive
                    (map Scraper.area_name (all_properties _ (run areas pages w)))) as Hpos.
      rewrite Forall_forall in Hpos. exact (Hpos _ Hin).
    + rewrite <- Htally. symmetry. apply tally_entry; assumption.
  - rewrite Hsum. apply length_map.
Qed.

(** *** Unsupported areas *)

Lemma step_unsupported (pages : Z) (st : state World) (a : Area) :
  name a <> Scraper.shinjuku -> name a <> Scraper.setagaya ->
  all_properties _ (step pages st a) = all_properties _ st
  /\ world _ (step pages st a) = world _ st.
Proof.
  intros H1 H2. destruct (area_step_state pages st a) as (-> & -> & _).
  unfold Scraper.scrape_area. rewrite ScraperSpec.AREA_CODES_unsupported by assumption.
  cbn. rewrite app_nil_r. split; reflexivity.
Qed.

Lemma fold_state_indep (areas : list Area) (pages : Z) (st1 st2 : state World) :
  all_properties _ st1 = all_properties _ st2 -> world _ st1 = world _ st2 ->
  all_properties _ (fold_left (step pages) areas st1)
  = all_properties _ (fold_left (step pages) areas st2)
  /\ world _ (fold_left (step pages) areas st1) = world _ (fold_left (step pages) areas st2).
Proof.
  revert st1 st2. induction areas as [|a areas IH]; intros st1 st2 Hp Hw; [split; assumption|].
  cbn [fold_left]. destruct (area_step_state pages st1 a) as (Hp1 & Hw1 & _).
  destruct (area_step_state pages st2 a) as (Hp2 & Hw2 & _).
  apply IH; [rewrite Hp1, Hp2, Hp, Hw|rewrite Hw1, Hw2, Hw]; reflexivity.
Qed.

(** X9.  An area that is not supported changes nothing for the others:
    the records returned and the world left are those of the run without
    that area in the list. *)
Theorem unsupported_area_ignored (areas1 areas2 : list Area) (a : Area) (pages : Z) (w : World) :
  name a <> Scraper.shinjuku -> name a <> Scraper.setagaya ->
  all_properties _ (scrape_multiple_areas ud World requests_get (areas1 ++ a :: areas2) pages w)
  = all_properties _ (scrape_multiple_areas ud World requests_get (areas1 ++ areas2) pages w)
  /\ world _ (scrape_multiple_areas ud World requests_get (areas1 ++ a :: areas2) pages w)
     = world _ (scrape_multiple_areas ud World requests_get (areas1 ++ areas2) pages w).
Proof.
  intros H1 H2.
  destruct (run_state (areas1 ++ a :: areas2) pages w) as [-> ->].
  destruct (run_state (areas1 ++ areas2) pages w) as [-> ->].
  rewrite !fold_left_app. cbn [fold_left]. apply fold_state_indep; apply step_unsupported; assumption.
Qed.

(** *** Sleeping *)

Lemma area_events_step (pages : Z) (st : state World) (a : Area) :
  area_events (log _ (step pages st a))
  = area_events (log _ st)
    ++ Scraper.st_log _ (run_area (code a) (name a) pages (world _ st)).
Proof.
  destruct (area_step_state pages st a) as (_ & _ & m & -> & _).
  unfold area_events. rewrite !omap_app. f_equal.
  replace (omap _ [Print m]) with (@nil Scraper.event) by reflexivity. rewrite app_nil_r.
  generalize (Scraper.st_log _ (run_area (code a) (name a) pages (world _ st))).
  intros l. induction l as [|e l IH]; [reflexivity|]. cbn. f_equal. exact IH.
Qed.

Lemma slept_fold (areas : list Area) (pages : Z) (st : state World) :
  slept (log _ (fold_left (step pages) areas st))
  = slept (log _ st)
    + 3 * Z.of_nat (Z.to_nat pages) * Z.of_nat (length (List.filter supported areas)).
Proof.
  revert st. induction areas as [|a areas IH]; intros st; cbn [fold_left List.filter].
  - cbn. lia.
  - rewrite IH. unfold slept. rewrite area_events_step, ScraperFacts.sleep_seconds_app,
      ScraperFacts.sleep_seconds_scrape_area.
    unfold supported. destruct (bool_decide _); cbn [length]; lia.
Qed.

Lemma filter_length_bound {A} (f : A -> bool) (l : list A) :
  (length (List.filter f l) <= length l)%nat.
Proof. induction l as [|x l IH]; cbn; [lia|]. destruct (f x); cbn; lia. Qed.

(** X10.  A run sleeps 3 seconds for every page of every supported
    area and not at all for the others, so the seconds it sleeps never
    exceed the estimate it prints at its start, [len(areas) * pages * 3],
    and equal it when every area is supported. *)
Theorem scrape_multiple_areas_sleep (areas : list Area) (pages : Z) (w : World) :
  0 <= pages ->
  slept (log _ (scrape_multiple_areas ud World requests_get areas pages w))
  = 3 * pages * Z.of_nat (length (List.filter supported areas))
  /\ slept (log _ (scrape_multiple_areas ud World requests_get areas pages w))
     <= Z.of_nat (length areas) * pages * 3
  /\ Print (MsgEstimate (Z.of_nat (length areas) * pages * 3))
     ∈ log _ (scrape_multiple_areas ud World requests_get areas pages w).
Proof.
  intros Hp.
  assert (Hs : slept (log _ (run areas pages w))
               = 3 * pages * Z.of_nat (length (List.filter supported areas))).
  { unfold scrape_multiple_areas. cbv zeta. cbn [log]. unfold slept, area_events.
    rewrite !omap_app. rewrite ScraperFacts.sleep_seconds_app.
    match goal with |- ScraperFacts.sleep_seconds (omap ?f (log _ ?st)) + _ = _ =>
      change (ScraperFacts.sleep_seconds (omap f (log _ st))) with (slept (log _ st)) end.
    rewrite slept_fold.
    replace (ScraperFacts.sleep_seconds _) with 0.
    - cbn. lia.
    - symmetry. rewrite ScraperFacts.sleep_seconds_app. cbn.
      generalize (Counter (map Scraper.area_name (all_properties World
        (fold_left (step pages) areas
           {| all_properties := []; world := w;
              log := [Print MsgRule; Print MsgTitle; Print MsgRule;
                      Print (MsgTarget (length areas) pages);
                      Print (MsgEstimate (Z.of_nat (length areas) * pages * 3));
                      Print MsgRule] |})))).
      intros c. induction c as [|x c IH]; [reflexivity|exact IH]. }
  split; [exact Hs|]. split.
  - rewrite Hs. pose proof (filter_length_bound supported areas). nia.
  - unfold scrape_multiple_areas. cbv zeta. cbn [log]. apply elem_of_app. left.
    clear Hs. set (est := Print (MsgEstimate _)).
    assert (Hin : forall ars (st : state World), est ∈ log _ st ->
                    est ∈ log _ (fold_left (step pages) ars st)).
    { induction ars as [|a ars IH]; intros st Hst; cbn [fold_left]; [exact Hst|].
      apply IH. destruct (area_step_state pages st a) as (_ & _ & m & -> & _).
      apply elem_of_app. left. exact Hst. }
    apply Hin. cbn [log]. do 4 apply list_elem_of_further. apply list_elem_of_here.
Qed.

(** *** Requests *)

(** The URLs of an area: those of its pages under the code of
    [AREA_CODES], none for an area that table does not hold. *)
Definition area_urls (pages : Z) (a : Area) : list pystr :=
  match Scraper.AREA_CODES !! name a with
  | Some sc => map (Scraper.build_url sc) (Scraper.page_range pages)
  | None => []
  end.

Lemma requested_fold (areas : list Area) (pages : Z) (st : state World) :
  ScraperSpec.requested (area_events (log _ (fold_left (step pages) areas st)))
  = ScraperSpec.requested (area_events (log _ st)) ++ flat_map (area_urls pages) areas.
Proof.
  revert st. induction areas as [|a areas IH]; intros st; cbn [fold_left flat_map].
  - rewrite app_nil_r. reflexivity.
  - rewrite IH, area_events_step. unfold ScraperSpec.requested at 1. rewrite omap_app.
    fold (ScraperSpec.requested (area_events (log _ st))).
    fold (ScraperSpec.requested
            (Scraper.st_log _ (run_area (code a) (name a) pages (world _ st)))).
    rewrite ScraperFacts.requested_scrape_area, <- app_assoc. reflexivity.
Qed.

Lemma area_events_breakdown (c : list (pystr * nat)) :
  area_events (map (fun ac => Print (MsgBreakdown (fst ac) (snd ac))) c) = [].
Proof. induction c as [|x c IH]; [reflexivity|exact IH]. Qed.

Lemma area_urls_names (areas areas' : list Area) (pages : Z) :
  map name areas' = map name areas ->
  flat_map (area_urls pages) areas' = flat_map (area_urls pages) areas.
Proof.
  revert areas'. induction areas as [|a areas IH]; intros [|a' areas'] H;
    try discriminate; [reflexivity|].
  cbn [map] in H. injection H as Ha Hrest. cbn [flat_map].
  rewrite (IH areas' Hrest). unfold area_urls. rewrite Ha. reflexivity.
Qed.

Lemma requested_run (areas : list Area) (pages : Z) (w : World) :
  ScraperSpec.requested (area_events (log _ (run areas pages w)))
  = flat_map (area_urls pages) areas.
Proof.
  unfold scrape_multiple_areas. cbv zeta. cbn [log]. unfold area_events at 1.
  rewrite !omap_app.
  match goal with |- context [omap ?f (log _ ?st)] =>
    change (omap f (log _ st)) with (area_events (log _ st)) end.
  match goal with |- context [omap ?f (map ?g ?c)] =>
    change (omap f (map g c)) with (area_events (map g c)) end.
  rewrite area_events_breakdown. cbn [omap list_omap app]. rewrite !app_nil_r.
  rewrite requested_fold. reflexivity.
Qed.

(** X11.  The requests of a run go area by area in the order of the
    list and, within an area, page by page from 1; an area gets the
    [pages] URLs built from the code [AREA_CODES] holds for its name,
    and an unsupported area gets none.  The names and the page count
    determine the requests: a list with the same names in the same order
    gives the same requests, whatever ['code'] entries it has. *)
Theorem scrape_multiple_areas_requests (areas : list Area) (pages : Z) (w : World) :
  ScraperSpec.requested
    (area_events (log _ (scrape_multiple_areas ud World requests_get areas pages w)))
  = flat_map (area_urls pages) areas
  /\ forall (areas' : list Area) (w' : World),
       map name areas' = map name areas ->
       ScraperSpec.requested
         (area_events (log _ (scrape_multiple_areas ud World requests_get areas' pages w')))
       = ScraperSpec.requested
           (area_events (log _ (scrape_multiple_areas ud World requests_get areas pages w))).
Proof.
  split; [apply requested_run|]. intros areas' w' H.
  rewrite (requested_run areas' pages w'), (requested_run areas pages w).
  apply area_urls_names, H.
Qed.

End Collect.

(** Three areas, the second one unsupported, on the network of one
    page. *)
Definition three_areas : list Area :=
  [ {| code := of_ascii "13"; name := Scraper.shinjuku |};
    {| code := of_ascii "13"; name := ScraperSpec.shibuya |};
    {| code := of_ascii "13"; name := Scraper.setagaya |} ].

Lemma unsupported_area_ignored_witness :
  all_properties _ (scrape_multiple_areas Scraper.basic_decimal nat ScraperSpec.one_page
                      three_areas 2 0%nat)
  = all_properties _ (scrape_multiple_areas Scraper.basic_decimal nat ScraperSpec.one_page
                        ([ {| code := of_ascii "13"; name := Scraper.shinjuku |} ]
                         ++ [ {| code := of_ascii "13"; name := Scraper.setagaya |} ]) 2 0%nat)
  /\ world _ (scrape_multiple_areas Scraper.basic_decimal nat ScraperSpec.one_page
                three_areas 2 0%nat)
     = world _ (scrape_multiple_areas Scraper.basic_decimal nat ScraperSpec.one_page
                  ([ {| code := of_ascii "13"; name := Scraper.shinjuku |} ]
                   ++ [ {| code := of_ascii "13"; name := Scraper.setagaya |} ]) 2 0%nat).
Proof.
  apply (unsupported_area_ignored Scraper.basic_decimal nat ScraperSpec.one_page
           [ {| code := of_ascii "13"; name := Scraper.shinjuku |} ]
           [ {| code := of_ascii "13"; name := Scraper.setagaya |} ]
           {| code := of_ascii "13"; name := ScraperSpec.shibuya |} 2 0%nat);
    discriminate.
Defined.

Lemma scrape_multiple_areas_sleep_witness :
  slept (log _ (scrape_multiple_areas Scraper.basic_decimal nat ScraperSpec.one_page
                  three_areas 2 0%nat))
  = 3 * 2 * Z.of_nat (length (List.filter supported three_areas))
  /\ slept (log _ (scrape_multiple_areas Scraper.basic_decimal nat ScraperSpec.one_page
                     three_areas 2 0%nat))
     <= Z.of_nat (length three_areas) * 2 * 3
  /\ Print (MsgEstimate (Z.of_nat (length three_areas) * 2 * 3))
     ∈ log _ (scrape_multiple_areas Scraper.basic_decimal nat ScraperSpec.one_page
                three_areas 2 0%nat).
Proof.
  apply (scrape_multiple_areas_sleep Scraper.basic_decimal nat ScraperSpec.one_page
           three_areas 2 0%nat).
  lia.
Defined.

Example sleep_of_three_areas :
  slept (log _ (scrape_multiple_areas Scraper.basic_decimal nat ScraperSpec.one_page
                  three_areas 2 0%nat)) = 12
  /\ breakdown (log _ (scrape_multiple_areas Scraper.basic_decimal nat ScraperSpec.one_page
                         three_areas 2 0%nat)) = [(Scraper.shinjuku, 1%nat)].
Proof. vm_compute. split; reflexivity. Qed.

End CollectorSpec.

(** ** More on the Property Store *)

Module StoreSpec.
Import Database.

(** The record a row was made from; [None] when a column that
    [save_properties] always fills holds NULL. *)
Definition record_of_row (r : Row) : option Scraper.ListingRecord :=
  match address r, admin_fee r, layout r, area_size r with
  | Some address, Some admin_fee, Some layout, Some area_size =>
      Some {| Scraper.name := name r;
              Scraper.address := address;
              Scraper.rent := rent r;
              Scraper.admin_fee := admin_fee;
              Scraper.total := total r;
              Scraper.layout := layout;
              Scraper.area_size := area_size;
              Scraper.area_name := area_name r |}
  | _, _, _, _ => None
  end.

(** The ids of the table are distinct and none exceeds the counter. *)
Definition ids_ok (db : DB) : Prop :=
  Forall (fun r => id r <= last_id db) (rows db) /\ NoDup (map id (rows db)).

Lemma insert_all_state (now : Z) (ps : list Scraper.ListingRecord) (db : DB) :
  exists new,
    rows (fold_left (insert_property now) ps db) = rows db ++ new
    /\ map record_of_row new = map Some ps
    /\ map id new = map (fun i => last_id db + Z.of_nat i) (seq 1 (length ps))
    /\ last_id (fold_left (insert_property now) ps db) = last_id db + Z.of_nat (length ps).
Proof.
  revert db. induction ps as [|p ps IH]; intros db; cbn [fold_left length seq map].
  - exists []. rewrite app_nil_r. repeat split. lia.
  - destruct (IH (insert_property now db p)) as (new & Hrows & Hrec & Hid & Hlast).
    eexists (_ :: new). split; [|split; [|split]].
    + rewrite Hrows. cbn [insert_property rows]. rewrite <- app_assoc. reflexivity.
    + cbn [map]. rewrite Hrec. f_equal. destruct p; reflexivity.
    + cbn [map id]. rewrite Hid. cbn [insert_property last_id].
      f_equal. rewrite <- !seq_shift, !map_map. apply map_ext. intros i. lia.
    + rewrite Hlast. cbn [insert_property last_id]. lia.
Qed.

Lemma read_back (now : Z) (db : DB) (ps : list Scraper.ListingRecord) :
  map record_of_row (rows (fst (save_properties now (clear_all db) ps))) = map Some ps.
Proof.
  unfold save_properties. cbn [fst].
  destruct (insert_all_state now ps (clear_all db)) as (new & Hrows & Hrec & _ & _).
  rewrite Hrows. cbn [clear_all rows app]. exact Hrec.
Qed.

(** X12.  What [save_properties] writes into a cleared store is read
    back as it was given: the rows of [get_all_properties] are the
    records saved, field for field and in their order, and [get_count]
    is the number [save_properties] returned. *)
Theorem save_then_read_back (now : Z) (db : DB) (ps : list Scraper.ListingRecord) :
  map record_of_row (get_all_properties (fst (save_properties now (clear_all db) ps)))
  = map Some ps
  /\ Queries.get_count (fst (save_properties now (clear_all db) ps))
     = snd (save_properties now (clear_all db) ps)
  /\ snd (save_properties now (clear_all db) ps) = length ps.
Proof.
  unfold save_properties, get_all_properties, Queries.get_count. cbn [fst snd].
  destruct (insert_all_state now ps (clear_all db)) as (new & Hrows & Hrec & _ & _).
  rewrite Hrows. cbn [clear_all rows app]. split; [exact Hrec|]. split; [|reflexivity].
  rewrite <- (length_map record_of_row), Hrec, length_map. reflexivity.
Qed.

(** X13.  Ids are never used twice.  If the ids of the table are
    distinct and at most the counter, they are so after
    [save_properties], also when the table was cleared first; the rows
    added get the ids after the counter, one by one, so each is larger
    than every id the table held before. *)
Theorem save_properties_fresh_ids (now : Z) (db : DB) (ps : list Scraper.ListingRecord) :
  ids_ok db ->
  ids_ok (fst (save_properties now db ps))
  /\ ids_ok (fst (save_properties now (clear_all db) ps))
  /\ map id (rows (fst (save_properties now (clear_all db) ps)))
     = map (fun i => last_id db + Z.of_nat i) (seq 1 (length ps)).
Proof.
  assert (Hgen : forall d, ids_ok d -> ids_ok (fst (save_properties now d ps))).
  { intros d [Hle Hnd]. unfold save_properties, ids_ok. cbn [fst].
    destruct (insert_all_state now ps d) as (new & Hrows & _ & Hid & Hlast).
    rewrite Hrows, Hlast. split.
    - apply Forall_app. split.
      + eapply Forall_impl; [exact Hle|]. intros r Hr. cbn beta in *. lia.
      + apply Forall_forall. intros r Hr.
        assert (Hin : id r ∈ map id new) by (apply list_elem_of_fmap; eauto).
        rewrite Hid in Hin. apply list_elem_of_fmap in Hin as (i & -> & Hi).
        apply list_elem_of_In, in_seq in Hi. lia.
    - rewrite map_app. apply NoDup_app. split; [exact Hnd|]. split.
      + intros x Hx Hx'. rewrite Hid in Hx'. apply list_elem_of_fmap in Hx' as (i & -> & Hi).
        apply list_elem_of_In, in_seq in Hi.
        apply list_elem_of_fmap in Hx as (r & Hr & Hin). rewrite Forall_forall in Hle.
        specialize (Hle r Hin). lia.
      + rewrite Hid. apply NoDup_fmap_2; [intros i j Hij; lia|].
        apply NoDup_ListNoDup, seq_NoDup. }
  intros Hok. split; [apply Hgen, Hok|]. split.
  - apply Hgen. split; [constructor|constructor].
  - unfold save_properties. cbn [fst].
    destruct (insert_all_state now ps (clear_all db)) as (new & Hrows & _ & Hid & _).
    rewrite Hrows. cbn [clear_all rows app last_id] in *. exact Hid.
Qed.

Lemma save_properties_fresh_ids_witness :
  ids_ok (fst (save_properties 0 DatabaseSpec.sample_db [DatabaseSpec.sample]))
  /\ ids_ok (fst (save_properties 0 (clear_all DatabaseSpec.sample_db) [DatabaseSpec.sample]))
  /\ map id (rows (fst (save_properties 0 (clear_all DatabaseSpec.sample_db)
                          [DatabaseSpec.sample])))
     = map (fun i => last_id DatabaseSpec.sample_db + Z.of_nat i)
         (seq 1 (length [DatabaseSpec.sample])).
Proof.
  apply (save_properties_fresh_ids 0 DatabaseSpec.sample_db [DatabaseSpec.sample]).
  split.
  - repeat constructor. cbn. lia.
  - cbn. repeat constructor. intros H. inversion H.
Defined.

(** *** Filters *)

(** An argument that is supplied and counts: not [None], not empty, not
    zero. *)
Definition given_str (a : option pystr) (v : pystr) : Prop := a = Some v /\ v <> [].
Definition given_num (x : option Q) (v : Q) : Prop := x = Some v /\ ~ (v == 0)%Q.

Lemma truthy_str_given (a : option pystr) :
  truthy_str a = true -> exists v, given_str a v /\ default [] a = v.
Proof.
  destruct a as [[|c v]|]; try discriminate. intros _. exists (c :: v).
  repeat split. discriminate.
Qed.

Lemma truthy_str_not_given (a : option pystr) :
  truthy_str a = false -> forall v, ~ given_str a v.
Proof. destruct a as [[|c v]|]; try discriminate; intros _ v' [H1 H2]; congruence. Qed.

Lemma truthy_num_given (x : option Q) :
  truthy_num x = true -> exists v, given_num x v /\ default 0%Q x = v.
Proof.
  destruct x as [v|]; [|discriminate]. cbn. intros H. exists v. repeat split.
  intros Hz. apply Qeq_bool_iff in Hz. rewrite Hz in H. discriminate.
Qed.

Lemma truthy_num_not_given (x : option Q) :
  truthy_num x = false -> forall v, ~ given_num x v.
Proof.
  destruct x as [v|]; cbn; intros H v' [H1 H2]; [|discriminate].
  injection H1 as <-. apply H2, Qeq_bool_iff. destruct (Qeq_bool v 0); [reflexivity|discriminate].
Qed.

Lemma filter_sublist {A} (f : A -> bool) (l : list A) : List.filter f l `sublist_of` l.
Proof.
  induction l as [|x l IH]; cbn; [constructor|].
  destruct (f x); [apply sublist_skip|apply sublist_cons]; exact IH.
Qed.

(** X14.  [get_properties_by_conditions] returns rows of the table, in
    table order, and a row is returned exactly when it meets every
    condition that was given: the area name and the layout are equal to
    the ones given, the total is at least [min_rent] and at most
    [max_rent].  An argument left out, an empty string and a bound of 0
    set no condition. *)
Theorem conditions_select (db : DB) (area : option pystr) (min_rent max_rent : option Q)
    (layout : option pystr) :
  get_properties_by_conditions db area min_rent max_rent layout `sublist_of` rows db
  /\ forall r,
       In r (get_properties_by_conditions db area min_rent max_rent layout)
       <-> In r (rows db)
           /\ (forall a, given_str area a -> area_name r = a)
           /\ (forall x, given_num min_rent x -> (x <= total r)%Q)
           /\ (forall y, given_num max_rent y -> (total r <= y)%Q)
           /\ (forall l, given_str layout l -> Database.layout r = Some l).
Proof.
  split; [apply filter_sublist|]. intros r.
  unfold get_properties_by_conditions, where_clause, build_conditions.
  rewrite filter_In, !forallb_app.
  assert (Ha : forallb (holds r) (if truthy_str area then [AreaNameEq (default [] area)] else [])
               = true <-> forall a, given_str area a -> area_name r = a).
  { destruct (truthy_str area) eqn:E.
    - destruct (truthy_str_given _ E) as (v & Hv & ->). cbn [forallb holds].
      rewrite andb_true_r, bool_decide_eq_true. split.
      + intros H a [Ha _]. destruct Hv as [Hv _]. congruence.
      + intros H. apply H, Hv.
    - split; [|reflexivity]. intros _ a Ha. destruct (truthy_str_not_given _ E a Ha). }
  assert (Hl : forallb (holds r) (if truthy_str layout then [LayoutEq (default [] layout)] else [])
               = true <-> forall l, given_str layout l -> Database.layout r = Some l).
  { destruct (truthy_str layout) eqn:E.
    - destruct (truthy_str_given _ E) as (v & Hv & ->). cbn [forallb holds].
      rewrite andb_true_r, bool_decide_eq_true. split.
      + intros H l [Hl' _]. destruct Hv as [Hv _]. congruence.
      + intros H. apply H, Hv.
    - split; [|reflexivity]. intros _ l Hl'. destruct (truthy_str_not_given _ E l Hl'). }
  assert (Hmin : forallb (holds r) (if truthy_num min_rent then [TotalGe (default 0%Q min_rent)]
                                    else [])
                 = true <-> forall x, given_num min_rent x -> (x <= total r)%Q).
  { destruct (truthy_num min_rent) eqn:E.
    - destruct (truthy_num_given _ E) as (v & Hv & ->). cbn [forallb holds].
      rewrite andb_true_r, Qle_bool_iff. split.
      + intros H x [Hx _]. destruct Hv as [Hv _]. congruence.
      + intros H. apply H, Hv.
    - split; [|reflexivity]. intros _ x Hx. destruct (truthy_num_not_given _ E x Hx). }
  assert (Hmax : forallb (holds r) (if truthy_num max_rent then [TotalLe (default 0%Q max_rent)]
                                    else [])
                 = true <-> forall y, given_num max_rent y -> (total r <= y)%Q).
  { destruct (truthy_num max_rent) eqn:E.
    - destruct (truthy_num_given _ E) as (v & Hv & ->). cbn [forallb holds].
      rewrite andb_true_r, Qle_bool_iff. split.
      + intros H y [Hy _]. destruct Hv as [Hv _]. congruence.
      + intros H. apply H, Hv.
    - split; [|reflexivity]. intros _ y Hy. destruct (truthy_num_not_given _ E y Hy). }
  rewrite !andb_true_iff, Ha, Hl, Hmin, Hmax. tauto.
Qed.

(** X15.  For a non-empty area name, [get_properties_by_area] and
    [get_properties_by_conditions] with only that area return the same
    rows.  For the empty name they differ: the first selects the rows
    whose area name is empty, the second sets no condition and returns
    the whole table. *)
Theorem by_area_agrees (db : DB) (a : pystr) :
  a <> [] ->
  Queries.get_properties_by_area db a
  = get_properties_by_conditions db (Some a) None None None
  /\ get_properties_by_conditions db (Some []) None None None = rows db
  /\ Forall (fun r => area_name r = []) (Queries.get_properties_by_area db []).
Proof.
  intros Ha. split; [|split].
  - unfold Queries.get_properties_by_area, get_properties_by_conditions, build_conditions.
    destruct a as [|c a]; [contradiction|]. cbn [truthy_str truthy_num app default].
    apply filter_ext. intros r. unfold where_clause. cbn. rewrite andb_true_r. reflexivity.
  - apply DatabaseSpec.filter_all_true. reflexivity.
  - apply Forall_forall. intros r Hr. apply list_elem_of_In, filter_In in Hr as [_ Hr].
    apply bool_decide_eq_true in Hr. exact Hr.
Qed.

Lemma by_area_agrees_witness :
  Queries.get_properties_by_area DatabaseSpec.sample_db Scraper.shinjuku
  = get_properties_by_conditions DatabaseSpec.sample_db (Some Scraper.shinjuku) None None None
  /\ get_properties_by_conditions DatabaseSpec.sample_db (Some []) None None None
     = rows DatabaseSpec.sample_db
  /\ Forall (fun r => area_name r = [])
       (Queries.get_properties_by_area DatabaseSpec.sample_db []).
Proof. apply (by_area_agrees DatabaseSpec.sample_db Scraper.shinjuku). discriminate. Defined.

(** *** Aggregates *)

Lemma Qmin_le (a b : Q) : (Qmin a b <= a)%Q /\ (Qmin a b <= b)%Q.
Proof.
  unfold Qmin. destruct (Qle_bool a b) eqn:E.
  - apply Qle_bool_iff in E. split; [apply Qle_refl|exact E].
  - split; [|apply Qle_refl]. apply Qlt_le_weak, Qnot_le_lt. intros H.
    apply Qle_bool_iff in H. congruence.
Qed.

Lemma Qmax_ge (a b : Q) : (a <= Qmax a b)%Q /\ (b <= Qmax a b)%Q.
Proof.
  unfold Qmax. destruct (Qle_bool a b) eqn:E.
  - apply Qle_bool_iff in E. split; [exact E|apply Qle_refl].
  - split; [apply Qle_refl|]. apply Qlt_le_weak, Qnot_le_lt. intros H.
    apply Qle_bool_iff in H. congruence.
Qed.

Lemma fold_Qmin (l : list Q) (a : Q) :
  In (fold_left Qmin l a) (a :: l)
  /\ Forall (fun x => (fold_left Qmin l a <= x)%Q) (a :: l).
Proof.
  revert a. induction l as [|x l IH]; intros a; cbn [fold_left].
  - split; [left; reflexivity|]. constructor; [apply Qle_refl|constructor].
  - destruct (IH (Qmin a x)) as [Hin Hall]. inversion Hall as [|? ? Hm Hl]; subst. split.
    + destruct Hin as [<-|Hin]; [|right; right; exact Hin].
      unfold Qmin. destruct (Qle_bool a x); [left|right; left]; reflexivity.
    + destruct (Qmin_le a x) as [H1 H2].
      constructor; [eapply Qle_trans; eassumption|].
      constructor; [eapply Qle_trans; eassumption|exact Hl].
Qed.

Lemma fold_Qmax (l : list Q) (a : Q) :
  In (fold_left Qmax l a) (a :: l)
  /\ Forall (fun x => (x <= fold_left Qmax l a)%Q) (a :: l).
Proof.
  revert a. induction l as [|x l IH]; intros a; cbn [fold_left].
  - split; [left; reflexivity|]. constructor; [apply Qle_refl|constructor].
  - destruct (IH (Qmax a x)) as [Hin Hall]. inversion Hall as [|? ? Hm Hl]; subst. split.
    + destruct Hin as [<-|Hin]; [|right; right; exact Hin].
      unfold Qmax. destruct (Qle_bool a x); [right; left|left]; reflexivity.
    + destruct (Qmax_ge a x) as [H1 H2].
      constructor; [eapply Qle_trans; eassumption|].
      constructor; [eapply Qle_trans; eassumption|exact Hl].
Qed.

(** The extremes of a non-empty group: minimum and maximum are values
    of the group, and no value lies outside them. *)
Definition extremes_ok (l : list Q) (lo hi : Q) : Prop :=
  In lo l /\ In hi l
  /\ Forall (fun x => (lo <= x)%Q /\ (x <= hi)%Q) l.

Lemma extremes_nonempty (l : list Q) :
  l <> [] -> extremes_ok l (minimum l) (maximum l).
Proof.
  destruct l as [|a l]; [contradiction|]. intros _. unfold minimum, maximum.
  destruct (fold_Qmin l a) as [Hmin_in Hmin]. destruct (fold_Qmax l a) as [Hmax_in Hmax].
  split; [exact Hmin_in|]. split; [exact Hmax_in|].
  rewrite Forall_forall in *. intros x Hx. split; [apply Hmin, Hx|apply Hmax, Hx].
Qed.

(** *** Statistics by area *)

Lemma sum_zero {A} (l : list A) : sum_list_with (fun _ => 0%nat) l = 0%nat.
Proof. induction l as [|x l IH]; [reflexivity|exact IH]. Qed.

Lemma sum_plus {A} (f g : A -> nat) (l : list A) :
  sum_list_with (fun x => (f x + g x)%nat) l = (sum_list_with f l + sum_list_with g l)%nat.
Proof. induction l as [|x l IH]; cbn; [reflexivity|]. rewrite IH. lia. Qed.

Lemma sum_ext_in {A} (f g : A -> nat) (l : list A) :
  (forall x, x ∈ l -> f x = g x) -> sum_list_with f l = sum_list_with g l.
Proof.
  induction l as [|x l IH]; intros H; cbn; [reflexivity|].
  rewrite H by apply list_elem_of_here. rewrite IH; [reflexivity|].
  intros y Hy. apply H, list_elem_of_further, Hy.
Qed.

Lemma sum_ext {A} (f g : A -> nat) (l : list A) :
  (forall x, f x = g x) -> sum_list_with f l = sum_list_with g l.
Proof. intros H. apply sum_ext_in. intros x _. apply H. Qed.

Lemma sum_indicator (keys : list pystr) (k : pystr) :
  NoDup keys -> k ∈ keys ->
  sum_list_with (fun k' => if bool_decide (k = k') then 1%nat else 0%nat) keys = 1%nat.
Proof.
  induction 1 as [|k0 keys Hk0 Hnd IH]; intros Hin; [inversion Hin|]. cbn.
  apply elem_of_cons in Hin as [->|Hin].
  - rewrite bool_decide_eq_true_2 by reflexivity.
    rewrite (sum_ext_in _ (fun _ => 0%nat)), sum_zero; [reflexivity|].
    intros x Hx. rewrite bool_decide_eq_false_2; [reflexivity|]. intros ->. contradiction.
  - rewrite bool_decide_eq_false_2 by (intros ->; contradiction). rewrite IH by exact Hin.
    reflexivity.
Qed.

Lemma group_sizes_sum (rs : list Row) (keys : list pystr) :
  NoDup keys -> (forall r, r ∈ rs -> area_name r ∈ keys) ->
  sum_list_with (fun k => length (List.filter (Queries.in_area k) rs)) keys = length rs.
Proof.
  intros Hnd. induction rs as [|r rs IH]; intros Hall; cbn [List.filter length].
  - apply sum_zero.
  - rewrite (sum_ext _ (fun k => ((if bool_decide (area_name r = k) then 1 else 0)
                                   + length (List.filter (Queries.in_area k) rs))%nat)).
    + rewrite sum_plus, sum_indicator, IH; [reflexivity| |exact Hnd|].
      * intros r' Hr'. apply Hall, list_elem_of_further, Hr'.
      * apply Hall, list_elem_of_here.
    + intros k. unfold Queries.in_area at 1. destruct (bool_decide (area_name r = k)); reflexivity.
Qed.

Lemma area_group_name (rs : list Row) (keys : list pystr) :
  map Queries.area_name (map (Queries.area_group rs) keys) = keys.
Proof. rewrite map_map. cbn. apply map_id. Qed.

Lemma area_stats_perm (db : DB) :
  Queries.get_area_stats db
  ≡ₚ map (Queries.area_group (rows db)) (remove_dups (map area_name (rows db))).
Proof. unfold Queries.get_area_stats. apply merge_sort_Permutation. Qed.

#[global] Instance area_avg_desc_trans : Transitive Queries.avg_desc.
Proof. intros a b c Hab Hbc. unfold Queries.avg_desc in *. eapply Qle_trans; eassumption. Qed.

#[global] Instance area_avg_desc_total : Total Queries.avg_desc.
Proof.
  intros a b. unfold Queries.avg_desc.
  destruct (Qlt_le_dec (Queries.avg_rent a) (Queries.avg_rent b)) as [H|H]; [right|left].
  - apply Qlt_le_weak, H.
  - exact H.
Qed.

(** X16.  [get_area_stats] has one group for every area name of the
    table and no other, each with the number of rows
    [get_properties_by_area] returns for it; the counts add up to
    [get_count], and the groups come by mean total, highest first. *)
Theorem area_stats_groups (db : DB) :
  NoDup (map Queries.area_name (Queries.get_area_stats db))
  /\ (forall a, a ∈ map Queries.area_name (Queries.get_area_stats db)
                <-> a ∈ map area_name (rows db))
  /\ Forall (fun g => Queries.count g
                      = length (Queries.get_properties_by_area db (Queries.area_name g)))
       (Queries.get_area_stats db)
  /\ sum_list (map Queries.count (Queries.get_area_stats db)) = Queries.get_count db
  /\ StronglySorted (fun a b => (Queries.avg_rent b <= Queries.avg_rent a)%Q)
       (Queries.get_area_stats db).
Proof.
  pose proof (area_stats_perm db) as Hperm.
  pose proof (Permutation_map Queries.area_name Hperm) as Hnames.
  rewrite area_group_name in Hnames.
  split; [|split; [|split; [|split]]].
  - rewrite Hnames. apply NoDup_remove_dups.
  - intros a. rewrite Hnames. apply elem_of_remove_dups.
  - rewrite Hperm. apply Forall_forall. intros g Hg.
    apply list_elem_of_In, in_map_iff in Hg as (a & <- & _).
    unfold Queries.area_group, Queries.get_properties_by_area. cbn. apply length_map.
  - rewrite (Permutation_map Queries.count Hperm), map_map.
    unfold Queries.get_count. cbn [Queries.area_group Queries.count].
    rewrite <- (group_sizes_sum (rows db) (remove_dups (map area_name (rows db)))).
    + generalize (remove_dups (map area_name (rows db))). intros keys.
      induction keys as [|k keys IH]; [reflexivity|]. cbn. rewrite length_map, IH.
      reflexivity.
    + apply NoDup_remove_dups.
    + intros r Hr. apply elem_of_remove_dups, list_elem_of_In, in_map, list_elem_of_In, Hr.
  - apply (StronglySorted_merge_sort Queries.avg_desc).
Qed.

Lemma filter_nil_absurd {A} (f : A -> bool) (l : list A) (x : A) :
  List.filter f l = [] -> In x l -> f x = true -> False.
Proof.
  intros Hnil Hin Hf. assert (H : In x (List.filter f l)) by (apply filter_In; auto).
  rewrite Hnil in H. destruct H.
Qed.

(** X17.  In every group of [get_area_stats], [min_rent] and [max_rent]
    are totals of rows of that area, and no row of the area has a total
    outside them. *)
Theorem area_stats_aggregates (db : DB) :
  Forall (fun g =>
            extremes_ok
              (map total (Queries.get_properties_by_area db (Queries.area_name g)))
              (Queries.min_rent g) (Queries.max_rent g))
    (Queries.get_area_stats db).
Proof.
  rewrite (area_stats_perm db). apply Forall_forall. intros g Hg.
  apply list_elem_of_In, in_map_iff in Hg as (a & <- & Ha).
  apply list_elem_of_In, elem_of_remove_dups, list_elem_of_In, in_map_iff in Ha as (r & Hr & Hin).
  unfold Queries.area_group, Queries.get_properties_by_area. cbn.
  apply extremes_nonempty. intros Hnil. apply map_eq_nil in Hnil.
  apply (filter_nil_absurd _ _ r Hnil Hin). apply bool_decide_eq_true. exact Hr.
Qed.

(** *** Statistics by layout *)

Lemma layout_stats_perm (db : DB) :
  get_layout_stats db
  ≡ₚ List.filter (fun g => 5 <=? count g)%nat
       (map (layout_group (List.filter layout_nonempty (rows db)))
          (remove_dups (omap layout (List.filter layout_nonempty (rows db))))).
Proof. unfold get_layout_stats. apply merge_sort_Permutation. Qed.

Lemma layout_group_rows (db : DB) (l : pystr) :
  l <> [] ->
  List.filter (has_layout l) (List.filter layout_nonempty (rows db))
  = DatabaseSpec.rows_with_layout l db.
Proof.
  intros Hl. apply DatabaseSpec.filter_filter_implied. intros r.
  apply DatabaseSpec.has_layout_nonempty, Hl.
Qed.

Lemma nonempty_layout_key (db : DB) (l : pystr) :
  l ∈ remove_dups (omap layout (List.filter layout_nonempty (rows db)))
  <-> l <> [] /\ DatabaseSpec.rows_with_layout l db <> [].
Proof.
  rewrite elem_of_remove_dups, list_elem_of_omap. split.
  - intros (r & Hr & Hl). apply list_elem_of_In, filter_In in Hr as [Hin Hne].
    assert (Hl' : l <> []).
    { unfold layout_nonempty in Hne. rewrite Hl in Hne. destruct l; [discriminate|congruence]. }
    split; [exact Hl'|]. intros Hnil.
    assert (Hr : In r (DatabaseSpec.rows_with_layout l db)).
    { apply filter_In. split; [exact Hin|]. apply bool_decide_eq_true, Hl. }
    rewrite Hnil in Hr. destruct Hr.
  - intros [Hl Hne]. destruct (DatabaseSpec.rows_with_layout l db) as [|r rs] eqn:E;
      [contradiction|].
    assert (Hr : In r (DatabaseSpec.rows_with_layout l db)) by (rewrite E; left; reflexivity).
    apply filter_In in Hr as [Hin Hhas]. apply bool_decide_eq_true in Hhas.
    exists r. split; [|exact Hhas]. apply list_elem_of_In, filter_In. split; [exact Hin|].
    unfold layout_nonempty. rewrite Hhas. destruct l; [contradiction|reflexivity].
Qed.

(** X18.  [get_layout_stats] reports a layout exactly when it is not
    empty and at least five rows have it, and reports it once. *)
Theorem layout_stats_complete (db : DB) :
  NoDup (map stat_layout (get_layout_stats db))
  /\ forall l,
       l ∈ map stat_layout (get_layout_stats db)
       <-> l <> [] /\ (5 <= length (DatabaseSpec.rows_with_layout l db))%nat.
Proof.
  pose proof (Permutation_map stat_layout (layout_stats_perm db)) as Hnames.
  split.
  - rewrite Hnames.
    set (keys := remove_dups _). assert (Hnd : NoDup keys) by apply NoDup_remove_dups.
    clearbody keys. induction Hnd as [|k keys Hk Hnd IH]; [constructor|].
    cbn [map List.filter]. destruct (5 <=? _)%nat; [|exact IH].
    cbn [map]. apply NoDup_cons. split; [|exact IH]. cbn [layout_group stat_layout].
    intros Hin. apply list_elem_of_In, in_map_iff in Hin as (g & Hg & Hin).
    apply filter_In in Hin as [Hin _]. apply in_map_iff in Hin as (k' & <- & Hk').
    cbn in Hg. subst. apply Hk, list_elem_of_In, Hk'.
  - intros l. rewrite Hnames. split.
    + intros Hin. apply list_elem_of_In, in_map_iff in Hin as (g & <- & Hin).
      apply filter_In in Hin as [Hin H5]. apply in_map_iff in Hin as (k & <- & Hk).
      apply list_elem_of_In, nonempty_layout_key in Hk as [Hl _].
      cbn [layout_group stat_layout count] in *. split; [exact Hl|].
      apply Nat.leb_le in H5. rewrite length_map, layout_group_rows in H5 by exact Hl. exact H5.
    + intros [Hl H5]. apply list_elem_of_In, in_map_iff.
      exists (layout_group (List.filter layout_nonempty (rows db)) l). split; [reflexivity|].
      apply filter_In. split.
      * apply in_map, list_elem_of_In, nonempty_layout_key. split; [exact Hl|].
        intros Hnil. rewrite Hnil in H5. cbn in H5. lia.
      * apply Nat.leb_le. cbn [layout_group count].
        rewrite length_map, layout_group_rows by exact Hl. exact H5.
Qed.

(** X19.  In every group of [get_layout_stats], [min_rent] and
    [max_rent] are totals of rows of that layout, and no row of the
    layout has a total outside them. *)
Theorem layout_stats_aggregates (db : DB) :
  Forall (fun g =>
            extremes_ok
              (map total (DatabaseSpec.rows_with_layout (stat_layout g) db))
              (min_rent g) (max_rent g))
    (get_layout_stats db).
Proof.
  rewrite (layout_stats_perm db). apply Forall_forall. intros g Hg.
  apply list_elem_of_In, filter_In in Hg as [Hg H5]. apply in_map_iff in Hg as (l & <- & Hl).
  apply list_elem_of_In, nonempty_layout_key in Hl as [Hl Hne].
  cbn [layout_group stat_layout min_rent avg_rent max_rent].
  rewrite layout_group_rows by exact Hl. apply extremes_nonempty.
  intros Hnil. apply map_eq_nil in Hnil. contradiction.
Qed.

End StoreSpec.

(** ** More on the Hypothesis Engine *)

Module AnalyzerFacts.
Import Analyzer.

(** The rows of the two comparison groups. *)
Definition in_comparison (r : Database.Row) : bool :=
  bool_decide (Database.area_name r = Scraper.shinjuku
               \/ Database.area_name r = Scraper.setagaya).

Definition comparison_rows (db : Database.DB) : Database.DB :=
  {| Database.rows := List.filter in_comparison (Database.rows db);
     Database.last_id := Database.last_id db |}.

Lemma totals_of_comparison (area : pystr) (rs : list Database.Row) :
  area = Scraper.shinjuku \/ area = Scraper.setagaya ->
  totals_of area (List.filter in_comparison rs) = totals_of area rs.
Proof.
  intros Ha. unfold totals_of. f_equal. apply DatabaseSpec.filter_filter_implied.
  intros r Hr. apply bool_decide_eq_true in Hr. apply bool_decide_eq_true.
  rewrite Hr. exact Ha.
Qed.

Lemma total_column_comparison (area : pystr) (rs : list Database.Row) :
  area = Scraper.shinjuku \/ area = Scraper.setagaya ->
  List.filter in_comparison rs <> [] ->
  total_column area (List.filter in_comparison rs) = total_column area rs.
Proof.
  intros Ha Hne. unfold total_column. rewrite (totals_of_comparison area rs Ha).
  destruct (List.filter in_comparison rs) eqn:E; [contradiction|].
  destruct rs; [discriminate|reflexivity].
Qed.

(** X21.  On a store that holds a row of one of the two wards, rows of
    other areas do not reach the result: the hypothesis test on the store
    is the test on its rows of the two wards, whatever else it holds. *)
Theorem other_areas_ignored (lib : Library) (db : Database.DB) :
  List.filter in_comparison (Database.rows db) <> [] ->
  verify_hypothesis lib (comparison_rows db) = verify_hypothesis lib db.
Proof.
  intros Hne. unfold verify_hypothesis, Database.get_all_properties, comparison_rows.
  cbn [Database.rows]. rewrite !total_column_comparison by auto. reflexivity.
Qed.

(** A store with one row of Shinjuku and one of another area. *)
Definition mixed_db : Database.DB :=
  fst (Database.save_properties 0 DatabaseSpec.empty_db
         [AnalyzerSpec.listing Scraper.shinjuku 85000;
          AnalyzerSpec.listing (of_ascii "Shibuya") 120000]).

Lemma other_areas_ignored_witness :
  verify_hypothesis AnalyzerSpec.plain_library (comparison_rows mixed_db)
  = verify_hypothesis AnalyzerSpec.plain_library mixed_db.
Proof.
  apply (other_areas_ignored AnalyzerSpec.plain_library mixed_db).
  vm_compute. discriminate.
Defined.

End AnalyzerFacts.

(** ** The run *)

Module PipelineSpec.
Import Pipeline.

Lemma read_back_forall (P : Scraper.ListingRecord -> Prop) (rs : list Database.Row)
    (ps : list Scraper.ListingRecord) :
  map StoreSpec.record_of_row rs = map Some ps -> Forall P ps ->
  Forall (fun r => exists p, StoreSpec.record_of_row r = Some p /\ P p) rs.
Proof.
  revert ps. induction rs as [|r rs IH]; intros [|p ps] Hmap Hall; try discriminate;
    [constructor|].
  cbn [map] in Hmap. injection Hmap as Hr Hrs. inversion Hall; subst.
  constructor; [exists p; split; assumption|]. eapply IH; eassumption.
Qed.

Lemma record_of_row_total_ok (r : Database.Row) (p : Scraper.ListingRecord) :
  StoreSpec.record_of_row r = Some p -> ScraperSpec.record_ok p -> DatabaseSpec.row_total_ok r.
Proof.
  unfold StoreSpec.record_of_row, DatabaseSpec.row_total_ok, ScraperSpec.record_ok.
  destruct (Database.address r), (Database.admin_fee r), (Database.layout r),
    (Database.area_size r); try discriminate.
  intros [= <-] (Ht & _). exact Ht.
Qed.

Lemma record_of_row_area (r : Database.Row) (p : Scraper.ListingRecord) :
  StoreSpec.record_of_row r = Some p ->
  Database.area_name r = Scraper.area_name p /\ Database.total r = Scraper.total p.
Proof.
  unfold StoreSpec.record_of_row.
  destruct (Database.address r), (Database.admin_fee r), (Database.layout r),
    (Database.area_size r); try discriminate.
  intros [= <-]. split; reflexivity.
Qed.

Lemma totals_of_read_back (area : pystr) (rs1 rs2 : list Database.Row)
    (ps : list Scraper.ListingRecord) :
  map StoreSpec.record_of_row rs1 = map Some ps ->
  map StoreSpec.record_of_row rs2 = map Some ps ->
  Analyzer.totals_of area rs1 = Analyzer.totals_of area rs2.
Proof.
  revert rs2 ps. induction rs1 as [|r1 rs1 IH]; intros [|r2 rs2] [|p ps] H1 H2;
    try discriminate; [reflexivity|].
  cbn [map] in H1, H2. injection H1 as Hr1 Hrs1. injection H2 as Hr2 Hrs2.
  destruct (record_of_row_area _ _ Hr1) as [Ha1 Ht1].
  destruct (record_of_row_area _ _ Hr2) as [Ha2 Ht2].
  unfold Analyzer.totals_of in *. cbn [List.filter]. rewrite Ha1, Ha2.
  destruct (bool_decide _); cbn [map]; rewrite ?Ht1, ?Ht2; [f_equal|]; eapply IH; eassumption.
Qed.

Lemma total_column_read_back (area : pystr) (rs1 rs2 : list Database.Row)
    (ps : list Scraper.ListingRecord) :
  map StoreSpec.record_of_row rs1 = map Some ps ->
  map StoreSpec.record_of_row rs2 = map Some ps ->
  Analyzer.total_column area rs1 = Analyzer.total_column area rs2.
Proof.
  intros H1 H2. unfold Analyzer.total_column.
  rewrite (totals_of_read_back area rs1 rs2 ps H1 H2).
  destruct rs1, rs2, ps; try discriminate; reflexivity.
Qed.

Section Run.

Variable ud : pychar -> option N.
Variable World : Type.
Variable requests_get : World -> pystr -> exc Scraper.Response * World.
Variable lib : Analyzer.Library.

(** The records the run collects from world [w]. *)
Definition collected (w : World) : list Scraper.ListingRecord :=
  Collector.all_properties _
    (Collector.scrape_multiple_areas ud World requests_get target_areas 3 w).

Lemma main_cases (now : Z) (w : World) (db : Database.DB) :
  (collected w = []
   /\ main ud World requests_get lib now w db
      = {| out_world := Collector.world _
                          (Collector.scrape_multiple_areas ud World requests_get
                             target_areas 3 w);
           out_db := db; out_saved := None; out_result := None |})
  \/ (collected w <> []
      /\ exists db',
           db' = fst (Database.save_properties now (Database.clear_all db) (collected w))
           /\ main ud World requests_get lib now w db
              = {| out_world := Collector.world _
                                  (Collector.scrape_multiple_areas ud World requests_get
                                     target_areas 3 w);
                   out_db := db';
                   out_saved := Some (length (collected w));
                   out_result := Some (Analyzer.verify_hypothesis lib db') |}).
Proof.
  unfold main, collected. cbv zeta.
  destruct (Collector.all_properties _ _) as [|p ps].
  - left. split; reflexivity.
  - right. split; [discriminate|]. eexists. split; reflexivity.
Qed.

(** X22.  A run that collects nothing leaves the store as it found it
    and runs no test.  A run that collects records replaces the content
    of the store by them: read back, the rows are the collected records
    in their order; every row satisfies [total == rent + admin_fee] and
    belongs to one of the two wards; the number saved is the number
    collected; and the result is the hypothesis test on that store. *)
Theorem main_store (now : Z) (w : World) (db : Database.DB) :
  (collected w = [] ->
   out_db _ (main ud World requests_get lib now w db) = db
   /\ out_saved _ (main ud World requests_get lib now w db) = None
   /\ out_result _ (main ud World requests_get lib now w db) = None)
  /\ (collected w <> [] ->
      map StoreSpec.record_of_row
        (Database.rows (out_db _ (main ud World requests_get lib now w db)))
      = map Some (collected w)
      /\ Forall (fun r => DatabaseSpec.row_total_ok r /\ AnalyzerFacts.in_comparison r = true)
           (Database.rows (out_db _ (main ud World requests_get lib now w db)))
      /\ out_saved _ (main ud World requests_get lib now w db)
         = Some (length (collected w))
      /\ out_result _ (main ud World requests_get lib now w db)
         = Some (Analyzer.verify_hypothesis lib
                   (out_db _ (main ud World requests_get lib now w db)))).
Proof.
  destruct (main_cases now w db) as [[He ->]|[Hne (db' & Hdb' & ->)]]; cbn [out_db out_saved out_result].
  - split; [intros _; repeat split|intros H; contradiction].
  - split; [intros H; contradiction|]. intros _.
    assert (Hback : map StoreSpec.record_of_row (Database.rows db') = map Some (collected w)).
    { subst db'. apply (StoreSpec.read_back now db (collected w)). }
    split; [exact Hback|]. split; [|split; reflexivity].
    pose proof (CollectorSpec.collected_records ud World requests_get target_areas 3 w) as Hok.
    fold (collected w) in Hok.
    eapply Forall_impl; [apply (read_back_forall _ _ _ Hback Hok)|].
    intros r (p & Hr & Hp & Hsup & _). split.
    + eapply record_of_row_total_ok; eassumption.
    + unfold AnalyzerFacts.in_comparison. apply bool_decide_eq_true.
      rewrite (proj1 (record_of_row_area _ _ Hr)). exact Hsup.
Qed.

(** X23.  What the store held before a run has no part in its result:
    two runs from the same world, on any two stores, end with the same
    hypothesis test result and the same number saved. *)
Theorem main_result_ignores_old_store (now1 now2 : Z) (w : World) (db1 db2 : Database.DB) :
  out_result _ (main ud World requests_get lib now1 w db1)
  = out_result _ (main ud World requests_get lib now2 w db2)
  /\ out_saved _ (main ud World requests_get lib now1 w db1)
     = out_saved _ (main ud World requests_get lib now2 w db2)
  /\ out_world _ (main ud World requests_get lib now1 w db1)
     = out_world _ (main ud World requests_get lib now2 w db2).
Proof.
  destruct (main_cases now1 w db1) as [[He1 ->]|[Hne1 (d1 & Hd1 & ->)]];
    destruct (main_cases now2 w db2) as [[He2 ->]|[Hne2 (d2 & Hd2 & ->)]];
    cbn [out_saved out_result out_world]; try contradiction.
  - repeat split.
  - split; [|split; reflexivity]. f_equal.
    assert (H1 : map StoreSpec.record_of_row (Database.rows d1) = map Some (collected w))
      by (subst d1; apply StoreSpec.read_back).
    assert (H2 : map StoreSpec.record_of_row (Database.rows d2) = map Some (collected w))
      by (subst d2; apply StoreSpec.read_back).
    unfold Analyzer.verify_hypothesis, Database.get_all_properties. cbv zeta.
    rewrite (total_column_read_back Scraper.shinjuku _ _ _ H1 H2),
            (total_column_read_back Scraper.setagaya _ _ _ H1 H2). reflexivity.
Qed.

End Run.

End PipelineSpec.
